(** * OpenLibrary search application

    A shallow embedding of the two views of the application:
    - [components/datafetching.tsx]: the search view ([fetchBooks],
      [BookCard], [DataFetching]);
    - [book/[id]/page.tsx]: the detail view ([BookPage]).

    A JavaScript string is modelled by the octets of its UTF-8 form; a
    lone surrogate, which such a string may hold, is kept as its
    three-octet generalized form, which is not valid UTF-8.  Numbers that
    reach this code are identifiers, years and page counts: they are
    integers, modelled in [Z].  Network access is an explicit
    oracle and every request that is issued is recorded in a trace. *)

From Stdlib Require Import ZArith String Ascii List Bool Lia.
From Stdlib Require Import DecimalString DecimalPos DecimalZ.
Import ListNotations.
Set Warnings "-register-all".
Open Scope string_scope.
Open Scope list_scope.

(** String concatenation, as a template literal or [+] performs it. *)
Infix "+++" := String.append (at level 60, right associativity).

(** ** The JavaScript runtime the views rely on *)
Module Js.

(** [!!s] for a string: only the empty string is falsy. *)
Definition truthy_string (s : string) : bool :=
  match s with
  | EmptyString => false
  | String _ _ => true
  end.

(** [!!n] for an integral number: only zero is falsy. *)
Definition truthy_number (n : Z) : bool := negb (n =? 0)%Z.

(** Number to string conversion as done by a template literal or by a
    text child; plain decimal digits for the safe integers. *)
Definition number_to_string (n : Z) : string :=
  NilZero.string_of_int (Z.to_int n).

(** [a ?? b] on an optional value. *)
Definition nullish_or {A : Type} (a : option A) (b : A) : A :=
  match a with
  | Some v => v
  | None => b
  end.

(** [s.split(sep)] for a one-character separator. The result is never
    the empty array: splitting the empty string gives one empty piece. *)
Fixpoint split (sep : ascii) (s : string) : list string :=
  match s with
  | EmptyString => [EmptyString]
  | String c r =>
      if Ascii.eqb c sep then EmptyString :: split sep r
      else match split sep r with
           | h :: t => String c h :: t
           | [] => [String c EmptyString]
           end
  end.

(** [a.pop()]: the last element, [undefined] on the empty array. *)
Fixpoint pop {A : Type} (a : list A) : option A :=
  match a with
  | [] => None
  | [x] => Some x
  | _ :: r => pop r
  end.

(** A template-literal hole filled with a possibly undefined string. *)
Definition interpolate (v : option string) : string :=
  match v with
  | Some s => s
  | None => "undefined"
  end.

(** [a.join(sep)]. *)
Fixpoint join (sep : string) (a : list string) : string :=
  match a with
  | [] => EmptyString
  | [x] => x
  | x :: r => x +++ sep +++ join sep r
  end.

(** [a.slice(from, to)] for indices within [0, 2^53). *)
Definition slice {A : Type} (from to : nat) (a : list A) : list A :=
  firstn (to - from) (skipn from a).

(** [s.toUpperCase()] on the ASCII letters (the language codes it is
    applied to are ASCII). *)
Definition upper_char (c : ascii) : ascii :=
  let n := nat_of_ascii c in
  if (97 <=? n)%nat && (n <=? 122)%nat then ascii_of_nat (n - 32) else c.

Fixpoint toUpperCase (s : string) : string :=
  match s with
  | EmptyString => EmptyString
  | String c r => String (upper_char c) (toUpperCase r)
  end.

(** *** Escaping for [encodeURIComponent] *)

Definition is_alnum (c : ascii) : bool :=
  let n := nat_of_ascii c in
  ((48 <=? n) && (n <=? 57) || (65 <=? n) && (n <=? 90)
   || (97 <=? n) && (n <=? 122))%nat.

(** The marks left alone next to letters and digits:
    [- _ . ! ~ * ' ( )]. *)
Definition is_uri_mark (c : ascii) : bool :=
  existsb (Ascii.eqb c)
    (list_ascii_of_string "-_.!~*'()").

Definition uri_unreserved (c : ascii) : bool := is_alnum c || is_uri_mark c.

Definition hex_digit (n : nat) : ascii :=
  nth n (list_ascii_of_string "0123456789ABCDEF") "0"%char.

(** One escaped octet: [%] and two upper-case hexadecimal digits. *)
Definition percent_octet (c : ascii) : string :=
  let n := nat_of_ascii c in
  String "%" (String (hex_digit (n / 16)) (String (hex_digit (n mod 16)) EmptyString)).

(** The escaped text of a well-formed string: every octet of the UTF-8
    form is kept when unreserved and escaped otherwise. *)
Fixpoint percent_escape (s : string) : string :=
  match s with
  | EmptyString => EmptyString
  | String c r =>
      (if uri_unreserved c then String c EmptyString else percent_octet c)
        +++ percent_escape r
  end.

(** The inverse reading of an escaped text, used to state that the
    escaping loses nothing. *)
Definition hex_value (c : ascii) : option nat :=
  let n := nat_of_ascii c in
  if (48 <=? n)%nat && (n <=? 57)%nat then Some (n - 48)
  else if (65 <=? n)%nat && (n <=? 70)%nat then Some (n - 55)
  else None.

Fixpoint percent_decode (s : string) : option string :=
  match s with
  | EmptyString => Some EmptyString
  | String c r =>
      if Ascii.eqb c "%" then
        match r with
        | String h (String l t) =>
            match hex_value h, hex_value l, percent_decode t with
            | Some a, Some b, Some u => Some (String (ascii_of_nat (16 * a + b)) u)
            | _, _, _ => None
            end
        | _ => None
        end
      else option_map (String c) (percent_decode r)
  end.

(** *** Untyped response data *)

(** A value as [JSON.parse] hands it over; [JFunction] stands for a
    built-in method found on a prototype. *)
Inductive JsValue : Type :=
| JUndefined
| JNull
| JBool (b : bool)
| JNumber (n : Z)
| JString (s : string)
| JArray (items : list JsValue)
| JObject (props : list (string * JsValue))
| JFunction (name : string).

Inductive JsError : Type :=
| AxiosError   (* the request failed or the status was not 2xx *)
| TypeError    (* a property was read on null or undefined, or a value
                  that is not a function was called *)
| URIError.    (* a string with a lone surrogate was to be escaped *)

(** How a promise settles. *)
Inductive Outcome (A : Type) : Type :=
| Resolved (a : A)
| Rejected (e : JsError).
Arguments Resolved {A} a.
Arguments Rejected {A} e.

(** Whether the octet [c] lies in [lo .. hi]. *)
Definition in_range (lo hi : nat) (c : ascii) : bool :=
  let n := nat_of_ascii c in
  ((lo <=? n) && (n <=? hi))%nat.

(** The second octet allowed after the lead [b0] of a three-octet form;
    after [ED] the range stops short of the surrogates. *)
Definition second_of_three (b0 b1 : ascii) : bool :=
  in_range 224 224 b0 && in_range 160 191 b1
  || in_range 225 236 b0 && in_range 128 191 b1
  || in_range 237 237 b0 && in_range 128 159 b1
  || in_range 238 239 b0 && in_range 128 191 b1.

(** The second octet allowed after the lead [b0] of a four-octet form. *)
Definition second_of_four (b0 b1 : ascii) : bool :=
  in_range 240 240 b0 && in_range 144 191 b1
  || in_range 241 243 b0 && in_range 128 191 b1
  || in_range 244 244 b0 && in_range 128 143 b1.

(** Whether the octets are the UTF-8 form of a sequence of Unicode scalar
    values, that is, of a string without lone surrogate. *)
Fixpoint utf8_valid (s : string) : bool :=
  match s with
  | EmptyString => true
  | String b0 r =>
      if in_range 0 127 b0 then utf8_valid r
      else
        match r with
        | EmptyString => false
        | String b1 r1 =>
            if in_range 194 223 b0 then in_range 128 191 b1 && utf8_valid r1
            else
              match r1 with
              | EmptyString => false
              | String b2 r2 =>
                  if second_of_three b0 b1
                  then in_range 128 191 b2 && utf8_valid r2
                  else
                    match r2 with
                    | EmptyString => false
                    | String b3 r3 =>
                        second_of_four b0 b1 && in_range 128 191 b2
                        && in_range 128 191 b3 && utf8_valid r3
                    end
              end
        end
  end.

(** [encodeURIComponent(s)]: the escaped text, or a [URIError] when the
    string holds a lone surrogate. *)
Definition encodeURIComponent (s : string) : Outcome string :=
  if utf8_valid s then Resolved (percent_escape s) else Rejected URIError.

Definition is_nullish (v : JsValue) : bool :=
  match v with
  | JUndefined | JNull => true
  | _ => false
  end.

Definition is_array (v : JsValue) : bool :=
  match v with
  | JArray _ => true
  | _ => false
  end.

Fixpoint own_property (k : string) (props : list (string * JsValue)) : JsValue :=
  match props with
  | [] => JUndefined
  | (k', v) :: r => if String.eqb k k' then v else own_property k r
  end.

(** The property read [v.k], for the two names read on untyped data,
    [docs] and [entries].  Reading on [null] or [undefined] throws; an
    object answers with its own property; an array has neither as an
    index but inherits the method [entries]; other primitives have
    neither. *)
Definition get (v : JsValue) (k : string) : Outcome JsValue :=
  match v with
  | JUndefined | JNull => Rejected TypeError
  | JObject props => Resolved (own_property k props)
  | JArray _ =>
      Resolved (if String.eqb k "entries" then JFunction "Array.prototype.entries"
                else JUndefined)
  | _ => Resolved JUndefined
  end.

(** [a ?? b] on untyped values. *)
Definition coalesce (a b : JsValue) : JsValue :=
  if is_nullish a then b else a.

End Js.
Import Js.

(** ** Asynchronous computations over a network oracle

    A computation is run against an oracle that tells how [axios.get]
    settles for each URL ([Resolved d] is a response whose [data] is [d]).
    Running it yields the URLs requested, in the order in which the
    requests are issued, and the way the computation settles. *)
Section Async.
Context {D : Type}.

Definition Net : Type := string -> Outcome D.

Definition Async (A : Type) : Type := Net -> list string * Outcome A.

Definition ret {A : Type} (a : A) : Async A :=
  fun _ => ([], Resolved a).

(** [await m] followed by [k]: a rejection of [m] ends the function. *)
Definition bind {A B : Type} (m : Async A) (k : A -> Async B) : Async B :=
  fun net =>
    let (t1, o) := m net in
    match o with
    | Resolved a => let (t2, o') := k a net in (t1 ++ t2, o')
    | Rejected e => (t1, Rejected e)
    end.

Definition lift {A : Type} (o : Outcome A) : Async A :=
  fun _ => ([], o).

(** [axios.get(url)] issues one GET request. *)
Definition axios_get (url : string) : Async D :=
  fun net => ([url], net url).

(** All settled values when every promise resolved, the rejection of the
    first rejected one (in list order) otherwise. *)
Fixpoint all_resolved {A : Type} (os : list (Outcome A)) : Outcome (list A) :=
  match os with
  | [] => Resolved []
  | Resolved a :: r =>
      match all_resolved r with
      | Resolved l => Resolved (a :: l)
      | Rejected e => Rejected e
      end
  | Rejected e :: _ => Rejected e
  end.

(** [Promise.all(ps)] over promises that were all started beforehand:
    every request of every member has been issued, whatever the others
    do; the aggregate resolves only when all members resolve. *)
Definition promise_all {A : Type} (ps : list (Async A)) : Async (list A) :=
  fun net =>
    let rs := map (fun p => p net) ps in
    (concat (map fst rs), all_resolved (map snd rs)).

End Async.
Arguments Net D : clear implicits.
Arguments Async D A : clear implicits.

Notation "x <- m ;; k" := (bind m (fun x => k))
  (at level 61, m at next level, right associativity).

(** ** The query hook

    [useQuery] of the query-cache library, reduced to the three fields the
    views read, for a query whose key has no cached data and for one run
    of its function.  A disabled query never runs its function and is
    neither loading nor failed; an enabled one runs it, is loading until
    the fetch has settled, and then holds the data or the error flag.  The
    client that configures the library is not part of these files: how
    often it runs a failed function again, and what it serves from its
    cache while it fetches again, is left out. *)
Record QueryResult (A : Type) : Type := mkQuery {
  data : option A;
  isLoading : bool;
  isError : bool
}.
Arguments mkQuery {A} _ _ _.
Arguments data {A} _.
Arguments isLoading {A} _.
Arguments isError {A} _.

Definition useQuery {D A : Type} (queryFn : Async D A) (enabled : bool)
    (net : Net D) (settled : bool) : list string * QueryResult A :=
  if enabled then
    let (requests, o) := queryFn net in
    (requests,
     if settled then
       match o with
       | Resolved a => mkQuery (Some a) false false
       | Rejected _ => mkQuery None false true
       end
     else mkQuery None true false)
  else ([], mkQuery None false false).

(** ** Rendered markup

    An element keeps its tag, its attributes and its children; class
    names, keys and event handlers are left out. *)
Inductive Node : Type :=
| Text (s : string)
| Elem (tag : string) (attrs : list (string * string)) (children : list Node).

(** A string child: the empty string creates no text node. *)
Definition string_child (s : string) : list Node :=
  if truthy_string s then [Text s] else [].

(** A possibly undefined string child. *)
Definition optional_child (s : option string) : list Node :=
  match s with
  | Some v => string_child v
  | None => []
  end.

(** A number child is printed, zero included. *)
Definition number_child (n : Z) : list Node := [Text (number_to_string n)].

(** [{s && jsx}] for an optional string [s]. *)
Definition when_string (s : option string) (jsx : string -> Node) : list Node :=
  match s with
  | None => []
  | Some v => if truthy_string v then [jsx v] else []
  end.

(** [{n && jsx}] for an optional number [n]: a zero is itself the value of
    the conjunction and is printed. *)
Definition when_number (n : option Z) (jsx : Z -> Node) : list Node :=
  match n with
  | None => []
  | Some v => if truthy_number v then [jsx v] else number_child v
  end.

(** [{a && a.length > 0 && jsx}] for an optional array [a]. *)
Definition when_nonempty {A : Type} (a : option (list A)) (jsx : list A -> Node)
    : list Node :=
  match a with
  | None => []
  | Some [] => []
  | Some l => [jsx l]
  end.

(** [{b && jsx}] for a boolean [b]. *)
Definition when_true (b : bool) (jsx : Node) : list Node :=
  if b then [jsx] else [].

(** All text of a tree, in document order. *)
Fixpoint texts (n : Node) : list string :=
  match n with
  | Text s => [s]
  | Elem _ _ ks => flat_map texts ks
  end.

Fixpoint attribute (a : string) (attrs : list (string * string)) : list string :=
  match attrs with
  | [] => []
  | (k, v) :: r => if String.eqb a k then [v] else attribute a r
  end.

(** The values of attribute [a] on the elements tagged [tag], in document
    order. *)
Fixpoint attribute_values (tag a : string) (n : Node) : list string :=
  match n with
  | Text _ => []
  | Elem t attrs ks =>
      (if String.eqb t tag then attribute a attrs else [])
        ++ flat_map (attribute_values tag a) ks
  end.

(** The targets of all [Link] elements and the sources of all [img]
    elements of a tree (the cover images; the logo of the search view is
    an [Image] element). *)
Definition hrefs (n : Node) : list string := attribute_values "Link" "href" n.
Definition image_sources (n : Node) : list string := attribute_values "img" "src" n.

(** ** The search view, [components/datafetching.tsx] *)
Module DataFetching.

Record Book : Type := mkBook {
  key : string;
  title : option string;
  name : option string;
  author_name : option (list string);
  first_publish_year : option Z;
  cover_i : option Z;
  language : option (list string);
  publisher : option (list string);
  number_of_pages_median : option Z;
  isbn : option (list string)
}.

(** The union ["title" | "author" | "q" | "authors"]. *)
Inductive QueryType : Type :=
| mode_title
| mode_author
| mode_q
| mode_authors.

Definition queryType_text (m : QueryType) : string :=
  match m with
  | mode_title => "title"
  | mode_author => "author"
  | mode_q => "q"
  | mode_authors => "authors"
  end.

(** [fetchBooks({ queryType, search, page = 1 })]; it throws when the
    search string cannot be escaped, and otherwise resolves to whatever
    value the coalescing chain selects from the response data. *)
Definition fetchBooks (queryType : QueryType) (search : string) (page : option Z)
    : Async JsValue JsValue :=
  let page := nullish_or page 1%Z in
  if negb (truthy_string search) then ret (JArray [])
  else
    url <- match queryType with
           | mode_authors =>
               escaped <- lift (encodeURIComponent search) ;;
               ret ("https://openlibrary.org/search/authors.json?q=" +++ escaped)
           | _ =>
               escaped <- lift (encodeURIComponent search) ;;
               ret ("https://openlibrary.org/search.json?"
                      +++ queryType_text queryType
                      +++ "=" +++ escaped
                      +++ "&page=" +++ number_to_string page)
           end ;;
    res_data <- axios_get url ;;
    found <- (docs <- lift (get res_data "docs") ;;
              if is_nullish docs then lift (get res_data "entries")
              else ret docs) ;;
    ret (coalesce found (JArray [])).

Definition coverUrl (book : Book) : string :=
  match cover_i book with
  | Some id =>
      if truthy_number id
      then "https://covers.openlibrary.org/b/id/" +++ number_to_string id +++ "-M.jpg"
      else "https://via.placeholder.com/200x300?text=No+Cover"
  | None => "https://via.placeholder.com/200x300?text=No+Cover"
  end.

Definition workId (book : Book) : option string :=
  pop (split "/" (key book)).

Definition BookCard (book : Book) : Node :=
  Elem "Link" [("href", "/book/" +++ interpolate (workId book))]
    [Elem "div" []
       [Elem "div" []
          [Elem "img"
             [("src", coverUrl book);
              ("alt", nullish_or (title book) "Book cover");
              ("loading", "lazy")] []];
        Elem "div" []
          ([Elem "h3" []
              (match title book with
               | Some t => string_child t
               | None => optional_child (name book)
               end)]
           ++ (match author_name book with
               | Some a => [Elem "p" [] (Text "By " :: string_child (join ", " a))]
               | None => []
               end)
           ++ [Elem "div" []
                 (when_number (first_publish_year book)
                    (fun y => Elem "p" [] (Text "First published: " :: number_child y))
                  ++ when_nonempty (publisher book)
                       (fun p => Elem "p" []
                                   (Text "Publisher: " :: string_child (hd EmptyString p)))
                  ++ when_nonempty (language book)
                       (fun l => Elem "p" []
                                   (Text "Language: "
                                      :: string_child (join ", " (map toUpperCase l)))))])]].

(** The children of the card grid: [data?.slice(0, 15).map(...)]. *)
Definition card_grid (data : option (list Book)) : list Node :=
  match data with
  | Some items => map BookCard (slice 0 15 items)
  | None => []
  end.

(** [data?.length === 0]. *)
Definition no_items (data : option (list Book)) : bool :=
  match data with
  | Some [] => true
  | _ => false
  end.

(** What the component returns for a given state and query result. *)
Definition view (search : string) (queryType : QueryType)
    (query : QueryResult (list Book)) : Node :=
  Elem "div" []
    ([Elem "div" []
        [Elem "div" []
           [Elem "Image"
              [("src", "/books.png"); ("width", "100"); ("height", "100");
               ("alt", "Logo"); ("priority", "true")] [];
            Elem "h1" [] [Text "OpenLibrary Search"]];
         Elem "div" []
           [Elem "Input"
              [("type", "text");
               ("placeholder", "Search for books or authors...");
               ("value", search)] [];
            Elem "select" [("value", queryType_text queryType)]
              [Elem "option" [("value", "title")] [Text "Search by Title"];
               Elem "option" [("value", "author")] [Text "Search by Author"];
               Elem "option" [("value", "q")] [Text "Search (General)"];
               Elem "option" [("value", "authors")] [Text "Search Authors Only"]]]]]
     ++ when_true (isLoading query)
          (Elem "div" [] [Elem "div" [] []; Elem "p" [] [Text "Loading books..."]])
     ++ when_true (isError query)
          (Elem "div" []
             [Elem "p" [] [Text "Failed to fetch books. Please try again."]])
     ++ [Elem "div" [] (card_grid (data query))]
     ++ when_true (no_items (data query) && negb (isLoading query)
                   && negb (isError query))
          (Elem "div" []
             [Elem "p" [] [Text "No books found. Try a different search term."]])).

Section Component.
(** The element type of [useQuery<Book[]>]: each item of a resolved array
    is read as a book without any check. *)
Variable as_book : JsValue -> Book.

(** The query result as the render reads it.  [data?.slice(0, 15).map]
    passes over [undefined] and [null] and works on an array; on any other
    value it calls something that is not a function, and the render
    throws. *)
Definition typed (r : QueryResult JsValue) : Outcome (QueryResult (list Book)) :=
  match data r with
  | None | Some JUndefined | Some JNull =>
      Resolved (mkQuery None (isLoading r) (isError r))
  | Some (JArray items) =>
      Resolved (mkQuery (Some (map as_book items)) (isLoading r) (isError r))
  | Some _ => Rejected TypeError
  end.

(** The component in state [(search, queryType)]: the requests its query
    issues and what its render gives, before ([settled = false]) and after
    the fetch has settled. *)
Definition DataFetching (search : string) (queryType : QueryType)
    (net : Net JsValue) (settled : bool) : list string * Outcome Node :=
  let (requests, query) :=
    useQuery (fetchBooks queryType search None) (truthy_string search) net settled in
  (requests,
   match typed query with
   | Resolved q => Resolved (view search queryType q)
   | Rejected e => Rejected e
   end).

End Component.

End DataFetching.

(** ** The detail view, [book/[id]/page.tsx] *)
Module BookPage.

(** A description or a biography as the upstream source sends it: a plain
    string, or an object wrapping the text in its [value] property (which
    may be missing). *)
Inductive TextField : Type :=
| PlainText (s : string)
| ValueWrapper (value : option string).

(** [{ key: string }]. *)
Record KeyRef : Type := mkKeyRef { ref_key : string }.

(** [{ author: { key: string } }]. *)
Record AuthorRef : Type := mkAuthorRef { author : KeyRef }.

Record BookDetails : Type := mkBookDetails {
  key : string;
  title : string;
  covers : option (list Z);
  description : option TextField;
  first_publish_date : option string;
  subjects : option (list string);
  subject_places : option (list string);
  subject_times : option (list string);
  authors : option (list AuthorRef);
  number_of_pages : option Z;
  publishers : option (list string);
  publish_places : option (list string);
  isbn_10 : option (list string);
  isbn_13 : option (list string);
  physical_format : option string;
  languages : option (list KeyRef)
}.

Record Author : Type := mkAuthor {
  name : string;
  birth_date : option string;
  death_date : option string;
  bio : option TextField
}.

(** [params.id] of the route. *)
Inductive Param : Type :=
| ParamString (s : string)
| ParamList (l : list string)
| ParamMissing.

(** [!!d]: a string is truthy unless empty, an object always. *)
Definition truthy_text (d : TextField) : bool :=
  match d with
  | PlainText s => truthy_string s
  | ValueWrapper _ => true
  end.

(** [v || fallback] on a possibly missing string. *)
Definition or_else (v : option string) (fallback : string) : string :=
  match v with
  | Some s => if truthy_string s then s else fallback
  | None => fallback
  end.

(** [{d && jsx}] for an optional text field. *)
Definition when_text (d : option TextField) (jsx : TextField -> Node) : list Node :=
  match d with
  | None => []
  | Some v => if truthy_text v then [jsx v] else []
  end.

(** The function of the first query. *)
Definition bookQueryFn (bookId : string) : Async BookDetails BookDetails :=
  res_data <- axios_get ("https://openlibrary.org/works/" +++ bookId +++ ".json") ;;
  ret res_data.

(** [book?.authors]. *)
Definition book_authors (book : option BookDetails) : option (list AuthorRef) :=
  match book with
  | Some b => authors b
  | None => None
  end.

(** [!!book?.authors]: an array is truthy, the empty one included. *)
Definition authors_enabled (book : option BookDetails) : bool :=
  match book_authors book with
  | Some _ => true
  | None => false
  end.

(** The function of the second query: one lookup per reference, started
    together, then awaited together. *)
Definition authorsQueryFn (book : option BookDetails) : Async Author (list Author) :=
  match book_authors book with
  | None => ret []
  | Some refs =>
      let authorPromises :=
        map (fun r => axios_get ("https://openlibrary.org" +++ ref_key (author r)
                                   +++ ".json")) refs in
      responses <- promise_all authorPromises ;;
      ret (map (fun res_data => res_data) responses)
  end.

Definition loading_view : Node :=
  Elem "div" []
    [Elem "div" []
       [Elem "div" [] [];
        Elem "p" [] [Text "Loading book details..."]]].

Definition not_found_view : Node :=
  Elem "div" []
    [Elem "div" []
       [Elem "p" [] [Text "Book not found"];
        Elem "Link" [("href", "/")] [Text "Return to search"]]].

Definition coverUrl (book : BookDetails) : string :=
  match covers book with
  | Some (id :: _) =>
      if truthy_number id
      then "https://covers.openlibrary.org/b/id/" +++ number_to_string id +++ "-L.jpg"
      else "https://via.placeholder.com/400x600?text=No+Cover"
  | _ => "https://via.placeholder.com/400x600?text=No+Cover"
  end.

(** The "by ..." line under the title. *)
Definition author_line (authors : option (list Author)) : list Node :=
  when_nonempty authors
    (fun l => Elem "div" [] (Text "by " :: string_child (join ", " (map name l)))).

(** The description block. *)
Definition description_section (book : BookDetails) : list Node :=
  when_text (description book)
    (fun d =>
       Elem "div" []
         [Elem "h2" [] [Text "Description"];
          Elem "p" []
            (string_child
               (match d with
                | PlainText s => s
                | ValueWrapper v => or_else v "No description available"
                end))]).

(** One biography block per author whose [bio] is truthy. *)
Definition biography (a : Author) : list Node :=
  when_text (bio a)
    (fun b =>
       Elem "div" []
         [Elem "h3" [] (string_child (name a));
          Elem "p" []
            (string_child
               (match b with
                | PlainText s => s
                | ValueWrapper v => or_else v "No biography available"
                end))]).

(** [author.bio] read as a condition. *)
Definition has_bio (a : Author) : bool :=
  match bio a with
  | Some b => truthy_text b
  | None => false
  end.

(** The "About the Author(s)" block: [authors?.some(...) && (...)]. *)
Definition biographies_section (authors : option (list Author)) : list Node :=
  match authors with
  | None => []
  | Some l =>
      when_true (existsb has_bio l)
        (Elem "div" []
           (Elem "h2" [] [Text "About the Author(s)"] :: flat_map biography l))
  end.

Definition detail_view (book : BookDetails) (authors : option (list Author)) : Node :=
  Elem "div" []
    [Elem "div" []
       [Elem "Link" [("href", "/")] [Text "‚Üê Back to search"];
        Elem "div" []
          [Elem "div" []
             [Elem "img" [("src", coverUrl book); ("alt", title book)] []];
           Elem "div" []
             ([Elem "div" []
                 (Elem "h1" [] (string_child (title book)) :: author_line authors)]
              ++ description_section book
              ++ [Elem "div" []
                    (when_string (first_publish_date book)
                       (fun d => Elem "div" []
                                   [Elem "h3" [] [Text "First Published"];
                                    Elem "p" [] (string_child d)])
                     ++ when_number (number_of_pages book)
                          (fun n => Elem "div" []
                                      [Elem "h3" [] [Text "Pages"];
                                       Elem "p" [] (number_child n)])
                     ++ when_nonempty (publishers book)
                          (fun p => Elem "div" []
                                      [Elem "h3" [] [Text "Publishers"];
                                       Elem "p" [] (string_child (join ", " p))])
                     ++ when_string (physical_format book)
                          (fun f => Elem "div" []
                                      [Elem "h3" [] [Text "Format"];
                                       Elem "p" [] (string_child f)]))]
              ++ when_nonempty (subjects book)
                   (fun s => Elem "div" []
                               [Elem "h3" [] [Text "Subjects"];
                                Elem "div" []
                                  (map (fun subject =>
                                          Elem "span" [] (string_child subject)) s)])
              ++ biographies_section authors)]]].

(** What the component returns, from the fields it reads of its two
    queries. *)
Definition view (book : option BookDetails) (bookLoading : bool)
    (authors : option (list Author)) (authorsLoading : bool) : Node :=
  if bookLoading || authorsLoading then loading_view
  else
    match book with
    | None => not_found_view
    | Some b => detail_view b authors
    end.

(** The component on route parameter [id]: the requests of the first
    query, the requests of the second, and the markup returned.  Each query has its
    own oracle and its own settled flag; the second query reads the data
    of the first. *)
Definition BookPage (id : Param) (netB : Net BookDetails) (netA : Net Author)
    (settledB settledA : bool) : list string * list string * Node :=
  let bookId :=
    match id with
    | ParamString s => s
    | _ => EmptyString
    end in
  let (requestsB, bookQuery) :=
    useQuery (bookQueryFn bookId) (truthy_string bookId) netB settledB in
  let book := data bookQuery in
  let (requestsA, authorsQuery) :=
    useQuery (authorsQueryFn book) (authors_enabled book) netA settledA in
  (requestsB, requestsA,
   view book (isLoading bookQuery) (data authorsQuery) (isLoading authorsQuery)).

End BookPage.

(** ** Notions used in the statements *)

(** Whether character [c] occurs in [s]. *)
Fixpoint occurs (c : ascii) (s : string) : bool :=
  match s with
  | EmptyString => false
  | String d r => Ascii.eqb d c || occurs c r
  end.

(** The oracle of a server that answers every request with data [d]. *)
Definition always {D : Type} (d : D) : Net D := fun _ => Resolved d.

(** The oracle of a network on which every request fails. *)
Definition unreachable {D : Type} : Net D := fun _ => Rejected AxiosError.

(** The lookup address of an author reference. *)
Definition author_url (r : BookPage.AuthorRef) : string :=
  "https://openlibrary.org" +++ BookPage.ref_key (BookPage.author r) +++ ".json".

(** The lookup address of a work. *)
Definition work_url (bookId : string) : string :=
  "https://openlibrary.org/works/" +++ bookId +++ ".json".

(** A search result with the given key and cover identifier. *)
Definition summary (key : string) (cover : option Z) : DataFetching.Book :=
  {| DataFetching.key := key;
     DataFetching.title := Some "The Hobbit";
     DataFetching.name := None;
     DataFetching.author_name := Some ["J.R.R. Tolkien"];
     DataFetching.first_publish_year := Some 1937%Z;
     DataFetching.cover_i := cover;
     DataFetching.language := Some ["eng"; "fre"];
     DataFetching.publisher := Some ["Allen & Unwin"];
     DataFetching.number_of_pages_median := Some 310%Z;
     DataFetching.isbn := None |}.

(** A work record with the given cover identifiers, description and
    author references. *)
Definition work (covers : option (list Z)) (description : option BookPage.TextField)
    (authors : option (list BookPage.AuthorRef)) : BookPage.BookDetails :=
  {| BookPage.key := "/works/OL27482W";
     BookPage.title := "The Hobbit";
     BookPage.covers := covers;
     BookPage.description := description;
     BookPage.first_publish_date := Some "1937";
     BookPage.subjects := Some ["Fantasy"];
     BookPage.subject_places := None;
     BookPage.subject_times := None;
     BookPage.authors := authors;
     BookPage.number_of_pages := None;
     BookPage.publishers := None;
     BookPage.publish_places := None;
     BookPage.isbn_10 := None;
     BookPage.isbn_13 := None;
     BookPage.physical_format := None;
     BookPage.languages := None |}.

(** An author record with the given biography. *)
Definition writer (name : string) (bio : option BookPage.TextField) : BookPage.Author :=
  {| BookPage.name := name;
     BookPage.birth_date := None;
     BookPage.death_date := None;
     BookPage.bio := bio |}.

(** A reference to the author stored under [key]. *)
Definition reference (key : string) : BookPage.AuthorRef :=
  BookPage.mkAuthorRef (BookPage.mkKeyRef key).

(** A network on which the lookup of one author succeeds and every other
    lookup fails. *)
Definition only_tolkien : Net BookPage.Author :=
  fun url =>
    if String.eqb url "https://openlibrary.org/authors/OL26320A.json"
    then Resolved (writer "J.R.R. Tolkien" None)
    else Rejected AxiosError.

(** The author result the detail page holds: the data of its second
    query, for the given data of the first. *)
Definition page_authors (book : option BookPage.BookDetails)
    (netA : Net BookPage.Author) (settledA : bool)
    : option (list BookPage.Author) :=
  data (snd (useQuery (BookPage.authorsQueryFn book)
               (BookPage.authors_enabled book) netA settledA)).

(** The requests of the second query of the detail page. *)
Definition author_requests (page : list string * list string * Node) : list string :=
  snd (fst page).

(** Whether the text [t] appears in a tree. *)
Definition mentions (t : string) (n : Node) : bool :=
  existsb (String.eqb t) (texts n).

(** The address [fetchBooks] requests for a non-empty search string. *)
Definition search_url (m : DataFetching.QueryType) (s : string) (page : option Z)
    : string :=
  match m with
  | DataFetching.mode_authors =>
      "https://openlibrary.org/search/authors.json?q=" +++ percent_escape s
  | DataFetching.mode_title =>
      "https://openlibrary.org/search.json?title=" +++ percent_escape s
        +++ "&page=" +++ number_to_string (nullish_or page 1%Z)
  | DataFetching.mode_author =>
      "https://openlibrary.org/search.json?author=" +++ percent_escape s
        +++ "&page=" +++ number_to_string (nullish_or page 1%Z)
  | DataFetching.mode_q =>
      "https://openlibrary.org/search.json?q=" +++ percent_escape s
        +++ "&page=" +++ number_to_string (nullish_or page 1%Z)
  end.

(** The part of a search address in front of the page parameter. *)
Definition search_base (m : DataFetching.QueryType) (s : string) : string :=
  match m with
  | DataFetching.mode_authors =>
      "https://openlibrary.org/search/authors.json?q=" +++ percent_escape s
  | DataFetching.mode_title =>
      "https://openlibrary.org/search.json?title=" +++ percent_escape s
  | DataFetching.mode_author =>
      "https://openlibrary.org/search.json?author=" +++ percent_escape s
  | DataFetching.mode_q =>
      "https://openlibrary.org/search.json?q=" +++ percent_escape s
  end.

(** A string that holds one lone surrogate, [U+D800], and nothing else. *)
Definition lone_surrogate : string :=
  String (ascii_of_nat 237) (String (ascii_of_nat 160)
    (String (ascii_of_nat 128) EmptyString)).


(** The text a string child contributes: none when the string is empty. *)
Definition shown (s : string) : list string :=
  if truthy_string s then [s] else [].

(** ** Facts about the runtime *)

Lemma truthy_string_nonempty (s : string) :
  truthy_string s = true <-> s <> EmptyString.
Proof.
  destruct s; simpl; split; intro H; try discriminate; try reflexivity.
  now elim H.
Qed.

Lemma split_not_nil (sep : ascii) (s : string) : split sep s <> [].
Proof.
  destruct s as [|c r]; simpl; [discriminate|].
  destruct (Ascii.eqb c sep); [discriminate|].
  destruct (split sep r); discriminate.
Qed.

Lemma split_without_separator (sep : ascii) (s : string) :
  occurs sep s = false -> split sep s = [s].
Proof.
  induction s as [|c r IH]; simpl; intro H; [reflexivity|].
  apply orb_false_iff in H as [Hc Hr].
  rewrite Hc, (IH Hr). reflexivity.
Qed.

Lemma split_at_separator (sep : ascii) (p q : string) :
  split sep (p +++ String sep q) = split sep p ++ split sep q.
Proof.
  induction p as [|c p IH]; simpl.
  - rewrite Ascii.eqb_refl. reflexivity.
  - destruct (Ascii.eqb c sep); rewrite IH; [reflexivity|].
    pose proof (split_not_nil sep p) as Hne.
    destruct (split sep p); [now elim Hne | reflexivity].
Qed.

Lemma pop_app {A : Type} (l1 l2 : list A) :
  l2 <> [] -> pop (l1 ++ l2) = pop l2.
Proof.
  intro Hne. induction l1 as [|x l1 IH]; [reflexivity|].
  simpl. destruct (l1 ++ l2) eqn:E.
  - apply app_eq_nil in E as [_ E]. now elim Hne.
  - exact IH.
Qed.

Lemma pop_defined {A : Type} (l : list A) : l <> [] -> exists x, pop l = Some x.
Proof.
  induction l as [|x l IH]; intro H; [now elim H|].
  destruct l as [|y l]; [now exists x|].
  apply IH. discriminate.
Qed.

(** Every string is free of the separator, or ends in a piece that is. *)
Lemma last_piece (sep : ascii) (s : string) :
  occurs sep s = false
  \/ exists p seg, s = p +++ String sep seg /\ occurs sep seg = false.
Proof.
  induction s as [|c r IH]; [now left|].
  destruct IH as [Hfree | (p & seg & -> & Hseg)].
  - simpl. destruct (Ascii.eqb c sep) eqn:E.
    + right. exists EmptyString, r. apply Ascii.eqb_eq in E. subst c. now split.
    + now left.
  - right. exists (String c p), seg. now split.
Qed.

Lemma append_assoc_sep (p : string) (c : ascii) (q : string) :
  p +++ String c EmptyString +++ q = p +++ String c q.
Proof. induction p; simpl; congruence. Qed.

Example split_work_key :
  split "/" "/works/OL27482W" = [EmptyString; "works"; "OL27482W"].
Proof. reflexivity. Qed.

Example pop_work_key : pop (split "/" "/works/OL27482W") = Some "OL27482W".
Proof. reflexivity. Qed.

Example number_to_string_decimal :
  number_to_string 14627509 = "14627509" /\ number_to_string (-1) = "-1"
  /\ number_to_string 0 = "0".
Proof. repeat split. Qed.

Example encode_reserved :
  percent_escape "Tolkien, J.R.R. & sons/1937?" =
  "Tolkien%2C%20J.R.R.%20%26%20sons%2F1937%3F".
Proof. reflexivity. Qed.

Lemma unreserved_not_percent (c : ascii) :
  uri_unreserved c = true -> Ascii.eqb c "%" = false.
Proof.
  destruct (Ascii.eqb c "%") eqn:E; [|reflexivity].
  apply Ascii.eqb_eq in E. subst c. vm_compute. discriminate.
Qed.

Lemma percent_octet_decodes (c : ascii) (r : string) :
  percent_decode (percent_octet c +++ r)
  = option_map (String c) (percent_decode r).
Proof.
  destruct c as [[] [] [] [] [] [] [] []]; cbn;
    destruct (percent_decode r); reflexivity.
Qed.

(** The escaping loses nothing: the escaped text reads back as
    the original. *)
Lemma percent_escape_decodes (s : string) :
  percent_decode (percent_escape s) = Some s.
Proof.
  induction s as [|c r IH]; [reflexivity|].
  change (percent_escape (String c r))
    with ((if uri_unreserved c then String c EmptyString else percent_octet c)
            +++ percent_escape r).
  destruct (uri_unreserved c) eqn:U.
  - simpl. rewrite (unreserved_not_percent c U), IH. reflexivity.
  - rewrite percent_octet_decodes, IH. reflexivity.
Qed.

Lemma occurs_cons (c d : ascii) (r : string) :
  occurs c (String d r) = Ascii.eqb d c || occurs c r.
Proof. reflexivity. Qed.

(** The escaped text is made of unreserved characters and escapes only. *)
Lemma percent_escape_alphabet (s : string) (c : ascii) :
  occurs c (percent_escape s) = true ->
  uri_unreserved c = true \/ c = "%"%char \/ occurs c "0123456789ABCDEF" = true.
Proof.
  induction s as [|d r IH]; [discriminate|].
  change (percent_escape (String d r))
    with ((if uri_unreserved d then String d EmptyString else percent_octet d)
            +++ percent_escape r).
  destruct (uri_unreserved d) eqn:U.
  - change (String d EmptyString +++ percent_escape r)
      with (String d (percent_escape r)).
    rewrite occurs_cons.
    intro H. apply orb_true_iff in H as [H|H]; [|now apply IH].
    apply Ascii.eqb_eq in H. subst d. now left.
  - change (percent_octet d +++ percent_escape r)
      with (String "%" (String (hex_digit (nat_of_ascii d / 16))
              (String (hex_digit (nat_of_ascii d mod 16)) (percent_escape r)))).
    rewrite !occurs_cons.
    intro H. repeat (apply orb_true_iff in H as [H|H]); try (now apply IH).
    + apply Ascii.eqb_eq in H. subst c. right. now left.
    + apply Ascii.eqb_eq in H. subst c. right. right.
      unfold hex_digit.
      assert (B : (nat_of_ascii d / 16 < 16)%nat).
      { apply Nat.Div0.div_lt_upper_bound. pose proof (nat_ascii_bounded d). lia. }
      revert B. generalize (nat_of_ascii d / 16)%nat. intros n B.
      do 16 (destruct n as [|n]; [reflexivity|]). lia.
    + apply Ascii.eqb_eq in H. subst c. right. right.
      unfold hex_digit.
      assert (B : (nat_of_ascii d mod 16 < 16)%nat) by (apply Nat.mod_upper_bound; lia).
      revert B. generalize (nat_of_ascii d mod 16)%nat. intros n B.
      do 16 (destruct n as [|n]; [reflexivity|]). lia.
Qed.

Example utf8_valid_examples :
  utf8_valid "the hobbit" = true
  /\ utf8_valid (String (ascii_of_nat 195) (String (ascii_of_nat 169) EmptyString))
     = true
  /\ utf8_valid (String (ascii_of_nat 240) (String (ascii_of_nat 159)
                   (String (ascii_of_nat 152) (String (ascii_of_nat 128) EmptyString))))
     = true
  /\ utf8_valid lone_surrogate = false.
Proof. repeat split. Qed.

(** ** The search query builder *)

Lemma encodeURIComponent_valid (s : string) :
  utf8_valid s = true -> encodeURIComponent s = Resolved (percent_escape s).
Proof. intro H. unfold encodeURIComponent. rewrite H. reflexivity. Qed.

(** The run of [fetchBooks] on a non-empty search string that can be
    escaped. *)
Lemma fetchBooks_request (m : DataFetching.QueryType) (s : string)
    (page : option Z) (net : Net JsValue) :
  s <> EmptyString ->
  utf8_valid s = true ->
  DataFetching.fetchBooks m s page net
  = ([search_url m s page],
     match net (search_url m s page) with
     | Resolved d =>
         match get d "docs" with
         | Resolved docs =>
             if is_nullish docs
             then match get d "entries" with
                  | Resolved entries => Resolved (coalesce entries (JArray []))
                  | Rejected e => Rejected e
                  end
             else Resolved (coalesce docs (JArray []))
         | Rejected e => Rejected e
         end
     | Rejected e => Rejected e
     end).
Proof.
  intros Hs Hv. apply truthy_string_nonempty in Hs.
  unfold DataFetching.fetchBooks. rewrite Hs. change (negb true) with false.
  rewrite (encodeURIComponent_valid s Hv).
  unfold bind, axios_get, lift, ret. cbv beta zeta iota.
  destruct m; cbn [search_url DataFetching.queryType_text String.append app];
    (match goal with |- context [net ?u] => destruct (net u) as [d|e] end);
    try reflexivity;
    destruct (get d "docs") as [docs|e]; try reflexivity;
    simpl; destruct (is_nullish docs); simpl; try reflexivity;
    destruct (get d "entries"); reflexivity.
Qed.

(** The run of [fetchBooks] on a search string that cannot be escaped. *)
Lemma fetchBooks_malformed (m : DataFetching.QueryType) (s : string)
    (page : option Z) (net : Net JsValue) :
  utf8_valid s = false ->
  DataFetching.fetchBooks m s page net = ([], Rejected URIError).
Proof.
  intro Hv. unfold DataFetching.fetchBooks.
  destruct s as [|c r]; [discriminate Hv|].
  cbn [truthy_string negb]. unfold encodeURIComponent. rewrite Hv.
  destruct m; reflexivity.
Qed.

(** [fetchBooks] issues one request at most. *)
Lemma fetchBooks_trace (m : DataFetching.QueryType) (s : string)
    (page : option Z) (net : Net JsValue) :
  length (fst (DataFetching.fetchBooks m s page net)) <= 1.
Proof.
  destruct s as [|c r]; [simpl; lia|].
  destruct (utf8_valid (String c r)) eqn:Hv.
  - rewrite fetchBooks_request by (discriminate || exact Hv). simpl. lia.
  - rewrite fetchBooks_malformed by exact Hv. simpl. lia.
Qed.

(** C1, as stated, fails: a search string that holds a lone surrogate is
    not empty, yet [encodeURIComponent] throws on it before any request is
    made, so that no address is built. *)
Lemma lone_surrogate_counterexample :
  lone_surrogate <> EmptyString
  /\ DataFetching.fetchBooks DataFetching.mode_title lone_surrogate None unreachable
     = ([], Rejected URIError)
  /\ DataFetching.fetchBooks DataFetching.mode_authors lone_surrogate None unreachable
     = ([], Rejected URIError).
Proof.
  split; [discriminate | split; reflexivity].
Qed.

(** C1, amended. For a non-empty search string without lone surrogate
    [fetchBooks] issues exactly one GET request.  In mode [authors] its
    address is the author-search endpoint followed by the percent-encoded
    string; in modes [title], [author] and [q] it is the search endpoint
    followed by the mode name, [=], the percent-encoded string, and
    [&page=] with the page number, which is 1 when no page is given. *)
Theorem fetchBooks_builds_one_url :
  forall (s : string) (page : option Z) (net : Net JsValue),
    s <> EmptyString ->
    utf8_valid s = true ->
    let enc := percent_escape s in
    let n := number_to_string (match page with Some p => p | None => 1%Z end) in
    fst (DataFetching.fetchBooks DataFetching.mode_authors s page net)
      = ["https://openlibrary.org/search/authors.json?q=" +++ enc]
    /\ fst (DataFetching.fetchBooks DataFetching.mode_title s page net)
      = ["https://openlibrary.org/search.json?title=" +++ enc +++ "&page=" +++ n]
    /\ fst (DataFetching.fetchBooks DataFetching.mode_author s page net)
      = ["https://openlibrary.org/search.json?author=" +++ enc +++ "&page=" +++ n]
    /\ fst (DataFetching.fetchBooks DataFetching.mode_q s page net)
      = ["https://openlibrary.org/search.json?q=" +++ enc +++ "&page=" +++ n].
Proof.
  intros s page net Hs Hv enc n.
  rewrite !(fetchBooks_request _ s page net Hs Hv). cbn [fst search_url].
  assert (Hn : number_to_string (nullish_or page 1%Z) = n) by (destruct page; reflexivity).
  rewrite Hn. fold enc.
  split; [|split; [|split]]; reflexivity.
Qed.

(** The title search for [hobbit]. *)
Example title_hobbit :
  DataFetching.fetchBooks DataFetching.mode_title "hobbit" None
    (always (JObject [("docs", JArray [JObject [("key", JString "/works/OL27482W")]])]))
  = (["https://openlibrary.org/search.json?title=hobbit&page=1"],
     Resolved (JArray [JObject [("key", JString "/works/OL27482W")]])).
Proof. reflexivity. Qed.

Lemma fetchBooks_builds_one_url_witness :
  fst (DataFetching.fetchBooks DataFetching.mode_title "the hobbit" None unreachable)
  = ["https://openlibrary.org/search.json?title=the%20hobbit&page=1"].
Proof.
  exact (proj1 (proj2 (fetchBooks_builds_one_url "the hobbit" None unreachable
                         ltac:(discriminate) eq_refl))).
Defined.

(** C2. With an empty search string [fetchBooks] resolves to the empty
    list and issues no request, in every mode; the component does not even
    start its query. *)
Theorem fetchBooks_empty_search :
  forall (m : DataFetching.QueryType) (page : option Z) (net : Net JsValue),
    DataFetching.fetchBooks m EmptyString page net = ([], Resolved (JArray []))
    /\ forall (as_book : JsValue -> DataFetching.Book) (settled : bool),
         fst (DataFetching.DataFetching as_book EmptyString m net settled) = [].
Proof.
  intros m page net. split; [reflexivity|].
  intros as_book settled. reflexivity.
Qed.

(** ** Reading the search response *)

(** How [fetchBooks] settles on a response whose two properties can be
    read. *)
Lemma fetchBooks_reads (m : DataFetching.QueryType) (s : string)
    (page : option Z) (d docs entries : JsValue) :
  s <> EmptyString ->
  utf8_valid s = true ->
  get d "docs" = Resolved docs ->
  get d "entries" = Resolved entries ->
  snd (DataFetching.fetchBooks m s page (always d))
  = Resolved (coalesce (if is_nullish docs then entries else docs) (JArray [])).
Proof.
  intros Hs Hv Hdocs Hentries.
  rewrite (fetchBooks_request m s page (always d) Hs Hv). cbn [snd].
  unfold always. rewrite Hdocs, Hentries.
  destruct (is_nullish docs); reflexivity.
Qed.

(** Reading a property throws on [null] and [undefined] only. *)
Lemma get_defined (d : JsValue) (k : string) :
  is_nullish d = false -> exists v, get d k = Resolved v.
Proof.
  destruct d; simpl; intro H; try discriminate; eexists; reflexivity.
Qed.

(** C9, as stated, fails: a response whose data is [null] makes
    [fetchBooks] throw instead of returning a list, and a response whose
    [docs] is not a list is handed back as it is. *)
Lemma fetchBooks_list_counterexample :
  ~ (exists l, snd (DataFetching.fetchBooks DataFetching.mode_title "hobbit" None
                      (always JNull)) = Resolved (JArray l))
  /\ ~ (exists l, snd (DataFetching.fetchBooks DataFetching.mode_title "hobbit" None
                         (always (JObject [("docs", JNumber 7)])))
                  = Resolved (JArray l)).
Proof.
  split; intros [l H]; vm_compute in H; discriminate.
Qed.

(** C9, amended. On a successful response whose data is neither [null] nor
    [undefined], [fetchBooks] returns the [docs] property unless that is
    [null] or [undefined], otherwise the [entries] property unless that is
    [null] or [undefined], otherwise the empty list.  The returned value is
    never [null] or [undefined], and it is a list whenever each of the two
    properties is a list, [null] or [undefined].  (A response presupposes
    a request: the search string is not empty and can be escaped.) *)
Theorem fetchBooks_coalesces :
  forall (m : DataFetching.QueryType) (s : string) (page : option Z) (d : JsValue),
    s <> EmptyString ->
    utf8_valid s = true ->
    is_nullish d = false ->
    exists docs entries result,
      get d "docs" = Resolved docs
      /\ get d "entries" = Resolved entries
      /\ result = (if is_nullish docs
                   then if is_nullish entries then JArray [] else entries
                   else docs)
      /\ snd (DataFetching.fetchBooks m s page (always d)) = Resolved result
      /\ is_nullish result = false
      /\ ((is_nullish docs || is_array docs)
            && (is_nullish entries || is_array entries) = true ->
          is_array result = true).
Proof.
  intros m s page d Hs Hv Hd.
  destruct (get_defined d "docs" Hd) as [docs Hdocs].
  destruct (get_defined d "entries" Hd) as [entries Hentries].
  exists docs, entries. eexists. repeat split; try eassumption.
  - rewrite (fetchBooks_reads m s page d docs entries Hs Hv Hdocs Hentries).
    unfold coalesce.
    destruct (is_nullish docs) eqn:E1; [reflexivity | now rewrite E1].
  - destruct (is_nullish docs) eqn:E1; [|exact E1].
    destruct (is_nullish entries) eqn:E2; [reflexivity | exact E2].
  - intro H. apply andb_true_iff in H as [H1 H2].
    destruct (is_nullish docs) eqn:E1.
    + destruct (is_nullish entries) eqn:E2; [reflexivity | exact H2].
    + exact H1.
Qed.

Lemma fetchBooks_coalesces_witness :
  snd (DataFetching.fetchBooks DataFetching.mode_authors "tolkien" None
         (always (JObject [("entries", JArray [JString "J.R.R. Tolkien"])])))
  = Resolved (JArray [JString "J.R.R. Tolkien"])
  /\ snd (DataFetching.fetchBooks DataFetching.mode_q "tolkien" None
            (always (JString EmptyString)))
     = Resolved (JArray []).
Proof.
  split.
  - destruct (fetchBooks_coalesces DataFetching.mode_authors "tolkien" None
                (JObject [("entries", JArray [JString "J.R.R. Tolkien"])])
                ltac:(discriminate) eq_refl eq_refl)
      as (docs & entries & result & Hd & He & Hr & Hs & _).
    injection Hd as <-. injection He as <-. subst result. exact Hs.
  - destruct (fetchBooks_coalesces DataFetching.mode_q "tolkien" None
                (JString EmptyString) ltac:(discriminate) eq_refl eq_refl)
      as (docs & entries & result & Hd & He & Hr & Hs & _).
    injection Hd as <-. injection He as <-. subst result. exact Hs.
Defined.

(** ** Book cards *)

(** A card holds one link, the one that wraps it. *)
Lemma BookCard_link (b : DataFetching.Book) :
  hrefs (DataFetching.BookCard b)
  = ["/book/" +++ interpolate (DataFetching.workId b)].
Proof.
  unfold hrefs, DataFetching.BookCard.
  generalize ("/book/" +++ interpolate (DataFetching.workId b)). intro target.
  generalize (DataFetching.coverUrl b). intro cover.
  destruct b as [k t n a y c l p pm i].
  unfold optional_child, when_number, when_nonempty, number_child, nullish_or.
  cbn [DataFetching.title DataFetching.name DataFetching.author_name
       DataFetching.first_publish_year DataFetching.language
       DataFetching.publisher].
  destruct t as [t|]; [|destruct n as [n|]];
    destruct a as [a|]; destruct y as [y|]; destruct p as [[|p0 p]|];
    destruct l as [[|l0 l]|];
    try (destruct (truthy_number y));
    unfold string_child;
    repeat match goal with
           | |- context [truthy_string ?s] => destruct (truthy_string s)
           end;
    reflexivity.
Qed.

(** A card holds one image, whose source is its cover address. *)
Lemma BookCard_image (b : DataFetching.Book) :
  image_sources (DataFetching.BookCard b) = [DataFetching.coverUrl b].
Proof.
  unfold image_sources, DataFetching.BookCard.
  generalize ("/book/" +++ interpolate (DataFetching.workId b)). intro target.
  generalize (DataFetching.coverUrl b). intro cover.
  destruct b as [k t n a y c l p pm i].
  unfold optional_child, when_number, when_nonempty, number_child, nullish_or.
  cbn [DataFetching.title DataFetching.name DataFetching.author_name
       DataFetching.first_publish_year DataFetching.language
       DataFetching.publisher].
  destruct t as [t|]; [|destruct n as [n|]];
    destruct a as [a|]; destruct y as [y|]; destruct p as [[|p0 p]|];
    destruct l as [[|l0 l]|];
    try (destruct (truthy_number y));
    unfold string_child;
    repeat match goal with
           | |- context [truthy_string ?s] => destruct (truthy_string s)
           end;
    reflexivity.
Qed.

Lemma workId_last_segment (b : DataFetching.Book) (p seg : string) :
  DataFetching.key b = p +++ "/" +++ seg ->
  occurs "/" seg = false ->
  DataFetching.workId b = Some seg.
Proof.
  intros Hk Hseg. unfold DataFetching.workId. rewrite Hk.
  change (p +++ "/" +++ seg) with (p +++ String "/" EmptyString +++ seg).
  rewrite append_assoc_sep, split_at_separator.
  rewrite pop_app by apply split_not_nil.
  rewrite (split_without_separator _ _ Hseg). reflexivity.
Qed.

(** C10. The link of a card points to [/book/] followed by the last
    [/]-separated segment of the book's key: the piece after the last [/];
    the whole key when it holds no [/]; the empty string when it ends in
    [/].  The segment is always defined. *)
Theorem card_link_target :
  forall b : DataFetching.Book,
    (exists seg, DataFetching.workId b = Some seg
                 /\ occurs "/" seg = false
                 /\ hrefs (DataFetching.BookCard b) = ["/book/" +++ seg])
    /\ (forall p seg,
          DataFetching.key b = p +++ "/" +++ seg ->
          occurs "/" seg = false ->
          hrefs (DataFetching.BookCard b) = ["/book/" +++ seg])
    /\ (occurs "/" (DataFetching.key b) = false ->
        hrefs (DataFetching.BookCard b) = ["/book/" +++ DataFetching.key b])
    /\ (forall p,
          DataFetching.key b = p +++ "/" ->
          hrefs (DataFetching.BookCard b) = ["/book/"]).
Proof.
  intro b.
  assert (Hlast : forall p seg,
             DataFetching.key b = p +++ "/" +++ seg ->
             occurs "/" seg = false ->
             hrefs (DataFetching.BookCard b) = ["/book/" +++ seg]).
  { intros p seg Hk Hseg.
    rewrite BookCard_link, (workId_last_segment b p seg Hk Hseg). reflexivity. }
  assert (Hwhole : occurs "/" (DataFetching.key b) = false ->
                   DataFetching.workId b = Some (DataFetching.key b)).
  { intro Hfree. unfold DataFetching.workId.
    rewrite (split_without_separator _ _ Hfree). reflexivity. }
  repeat split.
  - destruct (last_piece "/" (DataFetching.key b)) as [Hfree | (p & seg & Hk & Hseg)].
    + exists (DataFetching.key b). repeat split; auto.
      rewrite BookCard_link, (Hwhole Hfree). reflexivity.
    + assert (Hk' : DataFetching.key b = p +++ "/" +++ seg).
      { rewrite Hk. symmetry. apply append_assoc_sep. }
      exists seg. repeat split; auto.
      * exact (workId_last_segment b p seg Hk' Hseg).
      * exact (Hlast p seg Hk' Hseg).
  - exact Hlast.
  - intro Hfree. rewrite BookCard_link, (Hwhole Hfree). reflexivity.
  - intros p Hk. apply (Hlast p EmptyString); [|reflexivity].
    rewrite Hk. reflexivity.
Qed.

Lemma card_link_target_witness :
  hrefs (DataFetching.BookCard (summary "/works/OL27482W" None)) = ["/book/OL27482W"]
  /\ hrefs (DataFetching.BookCard (summary "OL27482W" None)) = ["/book/OL27482W"]
  /\ hrefs (DataFetching.BookCard (summary "/works/" None)) = ["/book/"].
Proof.
  split; [|split].
  - apply (proj1 (proj2 (card_link_target (summary "/works/OL27482W" None)))
             "/works" "OL27482W"); reflexivity.
  - apply (proj1 (proj2 (proj2 (card_link_target (summary "OL27482W" None)))));
      reflexivity.
  - apply (proj2 (proj2 (proj2 (card_link_target (summary "/works/" None))))
             "/works"); reflexivity.
Defined.

(** ** The card grid *)

Lemma slice_from_start {A : Type} (n : nat) (l : list A) :
  slice 0 n l = firstn n l.
Proof. unfold slice. rewrite Nat.sub_0_r. reflexivity. Qed.




(** ** Cover images *)

(** C8, as stated, fails: a cover identifier that is present but zero is
    not used to build the address; the placeholder is shown instead. *)
Lemma cover_zero_counterexample :
  DataFetching.cover_i (summary "/works/OL1W" (Some 0%Z)) = Some 0%Z
  /\ DataFetching.coverUrl (summary "/works/OL1W" (Some 0%Z))
     <> "https://covers.openlibrary.org/b/id/0-M.jpg"
  /\ image_sources (DataFetching.BookCard (summary "/works/OL1W" (Some 0%Z)))
     = ["https://via.placeholder.com/200x300?text=No+Cover"]
  /\ BookPage.coverUrl (work (Some [0%Z; 12%Z]) None None)
     = "https://via.placeholder.com/400x600?text=No+Cover".
Proof.
  repeat split. vm_compute. discriminate.
Qed.

(** C8, amended. On a search card, a cover identifier that is present and
    not zero gives the address [.../b/id/<id>-M.jpg]; on the detail page a
    first cover identifier that is present and not zero gives
    [.../b/id/<id>-L.jpg].  When the identifier is absent or zero, the
    view's fixed placeholder address is used.  The card's only image has
    that address as its source. *)
Theorem cover_address :
  forall (b : DataFetching.Book) (w : BookPage.BookDetails),
    (forall id, DataFetching.cover_i b = Some id -> id <> 0%Z ->
       DataFetching.coverUrl b
       = "https://covers.openlibrary.org/b/id/" +++ number_to_string id +++ "-M.jpg")
    /\ (DataFetching.cover_i b = None \/ DataFetching.cover_i b = Some 0%Z ->
        DataFetching.coverUrl b = "https://via.placeholder.com/200x300?text=No+Cover")
    /\ image_sources (DataFetching.BookCard b) = [DataFetching.coverUrl b]
    /\ (forall id rest, BookPage.covers w = Some (id :: rest) -> id <> 0%Z ->
        BookPage.coverUrl w
        = "https://covers.openlibrary.org/b/id/" +++ number_to_string id +++ "-L.jpg")
    /\ (BookPage.covers w = None \/ BookPage.covers w = Some []
        \/ (exists rest, BookPage.covers w = Some (0%Z :: rest)) ->
        BookPage.coverUrl w = "https://via.placeholder.com/400x600?text=No+Cover").
Proof.
  intros b w. split; [|split; [|split; [|split]]].
  - intros id Hid Hnz. unfold DataFetching.coverUrl. rewrite Hid.
    unfold truthy_number. apply Z.eqb_neq in Hnz. rewrite Hnz. reflexivity.
  - intros [H|H]; unfold DataFetching.coverUrl; rewrite H; reflexivity.
  - apply BookCard_image.
  - intros id rest Hid Hnz. unfold BookPage.coverUrl. rewrite Hid.
    unfold truthy_number. apply Z.eqb_neq in Hnz. rewrite Hnz. reflexivity.
  - intros [H|[H|[rest H]]]; unfold BookPage.coverUrl; rewrite H; reflexivity.
Qed.

Lemma cover_address_witness :
  DataFetching.coverUrl (summary "/works/OL27482W" (Some 14627509%Z))
  = "https://covers.openlibrary.org/b/id/14627509-M.jpg"
  /\ DataFetching.coverUrl (summary "/works/OL27482W" None)
     = "https://via.placeholder.com/200x300?text=No+Cover"
  /\ BookPage.coverUrl (work (Some [14627509%Z; 3]%Z) None None)
     = "https://covers.openlibrary.org/b/id/14627509-L.jpg"
  /\ BookPage.coverUrl (work (Some []) None None)
     = "https://via.placeholder.com/400x600?text=No+Cover".
Proof.
  pose proof (cover_address (summary "/works/OL27482W" (Some 14627509%Z))
                (work (Some [14627509%Z; 3]%Z) None None)) as (H1 & _ & _ & H4 & _).
  pose proof (cover_address (summary "/works/OL27482W" None)
                (work (Some []) None None)) as (_ & H2 & _ & _ & H5).
  split; [|split; [|split]].
  - apply (H1 14627509%Z); [reflexivity | discriminate].
  - apply H2. left. reflexivity.
  - apply (H4 14627509%Z [3%Z]); [reflexivity | discriminate].
  - apply H5. right. left. reflexivity.
Defined.

(** ** Descriptions and biographies *)




(** ** The author fan-out *)

Section FanOut.
Context {D : Type}.
Variable net : Net D.

(** Starting one GET per item issues all of them, in order, and settles as
    the oracle settles each. *)
Lemma promise_all_get {R : Type} (f : R -> string) (refs : list R) :
  promise_all (map (fun r => axios_get (f r)) refs) net
  = (map f refs, all_resolved (map (fun r => net (f r)) refs)).
Proof.
  unfold promise_all. cbv zeta. rewrite !map_map. cbn [axios_get fst snd].
  f_equal.
  induction refs as [|r refs IH]; [reflexivity|].
  cbn [map concat]. rewrite IH. reflexivity.
Qed.

Lemma all_resolved_rejected {R : Type} (g : R -> Outcome D) (refs : list R) :
  (exists r e, In r refs /\ g r = Rejected e) ->
  exists e, all_resolved (map g refs) = Rejected e.
Proof.
  intros (r & e & Hin & Hr).
  induction refs as [|x refs IH]; [contradiction|].
  cbn [map all_resolved].
  destruct (g x) as [a|e'] eqn:Hx; [|now exists e'].
  destruct Hin as [->|Hin]; [congruence|].
  destruct (IH Hin) as [e'' ->]. now exists e''.
Qed.

Lemma all_resolved_complete {R : Type} (g : R -> Outcome D) (refs : list R)
    (l : list D) :
  all_resolved (map g refs) = Resolved l ->
  Forall2 (fun r a => g r = Resolved a) refs l.
Proof.
  revert l. induction refs as [|x refs IH]; intros l H.
  - injection H as <-. constructor.
  - cbn [map all_resolved] in H.
    destruct (g x) as [a|e] eqn:Hx; [|discriminate].
    destruct (all_resolved (map g refs)) as [l'|e]; [|discriminate].
    injection H as <-. constructor; [exact Hx | now apply IH].
Qed.

Lemma all_resolved_every {R : Type} (g : R -> Outcome D) (refs : list R) :
  (forall r, In r refs -> exists a, g r = Resolved a) ->
  exists l, all_resolved (map g refs) = Resolved l /\ length l = length refs.
Proof.
  induction refs as [|x refs IH]; intro H.
  - now exists [].
  - destruct (H x (or_introl eq_refl)) as [a Ha].
    destruct IH as (l & Hl & Hlen); [intros r Hr; apply H; now right|].
    exists (a :: l). cbn [map all_resolved]. rewrite Ha, Hl.
    split; [reflexivity | simpl; congruence].
Qed.

End FanOut.

(** The function of the second query, run on a record with references. *)
Lemma authorsQueryFn_run (w : BookPage.BookDetails)
    (refs : list BookPage.AuthorRef) (net : Net BookPage.Author) :
  BookPage.authors w = Some refs ->
  BookPage.authorsQueryFn (Some w) net
  = (map author_url refs, all_resolved (map (fun r => net (author_url r)) refs)).
Proof.
  intro H. unfold BookPage.authorsQueryFn, BookPage.book_authors. rewrite H.
  unfold bind.
  rewrite (promise_all_get net
             (fun r => "https://openlibrary.org"
                         +++ BookPage.ref_key (BookPage.author r) +++ ".json") refs).
  unfold author_url.
  match goal with
  | |- context [all_resolved ?os] => destruct (all_resolved os) as [l|e]
  end; [|reflexivity].
  unfold ret. rewrite app_nil_r, map_id. reflexivity.
Qed.

(** C5. For a record with N author references the second query issues
    exactly N lookups, one per reference and at the address its key names,
    all of them whatever the fate of the others.  If any lookup fails the
    aggregate fails and the query holds no author list, not even a partial
    one; the aggregate resolves only with the results of all N lookups. *)
Theorem author_fan_out :
  forall (w : BookPage.BookDetails) (refs : list BookPage.AuthorRef)
         (net : Net BookPage.Author),
    BookPage.authors w = Some refs ->
    fst (BookPage.authorsQueryFn (Some w) net)
    = map (fun r => "https://openlibrary.org"
                      +++ BookPage.ref_key (BookPage.author r) +++ ".json") refs
    /\ length (fst (BookPage.authorsQueryFn (Some w) net)) = length refs
    /\ ((exists r e, In r refs /\ net (author_url r) = Rejected e) ->
        (exists e, snd (BookPage.authorsQueryFn (Some w) net) = Rejected e)
        /\ data (snd (useQuery (BookPage.authorsQueryFn (Some w))
                        (BookPage.authors_enabled (Some w)) net true)) = None)
    /\ (forall l, snd (BookPage.authorsQueryFn (Some w) net) = Resolved l ->
        Forall2 (fun r a => net (author_url r) = Resolved a) refs l)
    /\ ((forall r, In r refs -> exists a, net (author_url r) = Resolved a) ->
        exists l, snd (BookPage.authorsQueryFn (Some w) net) = Resolved l
                  /\ length l = length refs).
Proof.
  intros w refs net H.
  rewrite (authorsQueryFn_run w refs net H). cbn [fst snd].
  split; [|split; [|split; [|split]]].
  - reflexivity.
  - apply length_map.
  - intro Hfail.
    destruct (all_resolved_rejected (fun r => net (author_url r)) refs Hfail)
      as [e He].
    split; [now exists e|].
    unfold useQuery, BookPage.authors_enabled, BookPage.book_authors.
    rewrite H, (authorsQueryFn_run w refs net H), He. reflexivity.
  - intros l Hl.
    exact (all_resolved_complete (fun r => net (author_url r)) refs l Hl).
  - intro Hall.
    exact (all_resolved_every (fun r => net (author_url r)) refs Hall).
Qed.

Lemma author_fan_out_witness :
  fst (BookPage.authorsQueryFn
         (Some (work None None
                  (Some [reference "/authors/OL26320A"; reference "/authors/OL2622837A"])))
         only_tolkien)
  = ["https://openlibrary.org/authors/OL26320A.json";
     "https://openlibrary.org/authors/OL2622837A.json"]
  /\ exists e,
       snd (BookPage.authorsQueryFn
              (Some (work None None
                       (Some [reference "/authors/OL26320A";
                              reference "/authors/OL2622837A"])))
              only_tolkien) = Rejected e.
Proof.
  pose proof (author_fan_out
                (work None None
                   (Some [reference "/authors/OL26320A"; reference "/authors/OL2622837A"]))
                [reference "/authors/OL26320A"; reference "/authors/OL2622837A"]
                only_tolkien eq_refl) as (H1 & _ & H3 & _).
  split; [exact H1|].
  apply H3. exists (reference "/authors/OL2622837A"), AxiosError.
  split; [right; left; reflexivity | reflexivity].
Defined.

(** ** Ordering of the two queries of the detail page *)

Lemma authorsQueryFn_without_references (book : option BookPage.BookDetails)
    (net : Net BookPage.Author) :
  BookPage.book_authors book = None \/ BookPage.book_authors book = Some [] ->
  BookPage.authorsQueryFn book net = ([], Resolved []).
Proof.
  intros [H|H]; unfold BookPage.authorsQueryFn; rewrite H; reflexivity.
Qed.

(** C6, as stated, fails: for a resolved record without [authors] property
    the second query is disabled, its function is never run, and the author
    result of the page stays undefined instead of being the empty list. *)
Lemma absent_authors_counterexample :
  BookPage.authors (work None None None) = None
  /\ useQuery (BookPage.authorsQueryFn (Some (work None None None)))
       (BookPage.authors_enabled (Some (work None None None))) only_tolkien true
     = ([], mkQuery None false false)
  /\ page_authors (Some (work None None None)) only_tolkien true = None
  /\ page_authors (Some (work None None None)) only_tolkien true <> Some [].
Proof.
  repeat split. discriminate.
Qed.

(** C6, amended. No author lookup is issued while the primary record is
    still in flight or when its fetch failed, and none is issued when the
    resolved record holds no author references.  When its references are
    the empty list the author result is the empty list; when it has no
    [authors] property the second query is not run and the author result
    stays undefined. *)
Theorem author_lookups_gated :
  forall (s : string) (netB : Net BookPage.BookDetails)
         (netA : Net BookPage.Author) (settledA : bool),
    (forall id,
       author_requests (BookPage.BookPage id netB netA false settledA) = [])
    /\ (forall e settledB,
          netB (work_url s) = Rejected e ->
          author_requests
            (BookPage.BookPage (BookPage.ParamString s) netB netA settledB settledA)
          = [])
    /\ (forall w settledB,
          netB (work_url s) = Resolved w ->
          BookPage.authors w = None \/ BookPage.authors w = Some [] ->
          author_requests
            (BookPage.BookPage (BookPage.ParamString s) netB netA settledB settledA)
          = [])
    /\ (forall w,
          BookPage.authors w = Some [] ->
          page_authors (Some w) netA true = Some [])
    /\ (forall w,
          BookPage.authors w = None ->
          useQuery (BookPage.authorsQueryFn (Some w))
            (BookPage.authors_enabled (Some w)) netA settledA
          = ([], mkQuery None false false)
          /\ page_authors (Some w) netA settledA = None).
Proof.
  intros s netB netA settledA.
  split; [|split; [|split; [|split]]].
  - intro id.
    unfold author_requests, BookPage.BookPage, useQuery, BookPage.bookQueryFn,
      bind, axios_get, ret.
    match goal with
    | |- context [truthy_string ?b] => destruct (truthy_string b)
    end; [|reflexivity].
    match goal with
    | |- context [netB ?u] => destruct (netB u)
    end; reflexivity.
  - intros e settledB H.
    unfold author_requests, BookPage.BookPage, useQuery, BookPage.bookQueryFn,
      bind, axios_get, ret.
    fold (work_url s). rewrite H.
    destruct (truthy_string s), settledB; reflexivity.
  - intros w settledB H Hrefs.
    unfold author_requests, BookPage.BookPage, useQuery, BookPage.bookQueryFn,
      bind, axios_get, ret.
    fold (work_url s). rewrite H.
    destruct (truthy_string s), settledB; try reflexivity.
    cbn [data].
    rewrite (authorsQueryFn_without_references (Some w) netA Hrefs).
    destruct (BookPage.authors_enabled (Some w)); reflexivity.
  - intros w Hrefs.
    unfold page_authors, useQuery, BookPage.authors_enabled,
      BookPage.authorsQueryFn, BookPage.book_authors.
    rewrite Hrefs. reflexivity.
  - intros w Hrefs.
    unfold page_authors, useQuery, BookPage.authors_enabled, BookPage.book_authors.
    rewrite Hrefs. split; reflexivity.
Qed.

Lemma author_lookups_gated_witness :
  author_requests
    (BookPage.BookPage (BookPage.ParamString "OL27482W") unreachable only_tolkien
       true true) = []
  /\ author_requests
       (BookPage.BookPage (BookPage.ParamString "OL27482W")
          (always (work None None (Some []))) only_tolkien true true) = []
  /\ page_authors (Some (work None None (Some []))) only_tolkien true = Some []
  /\ page_authors (Some (work None None None)) only_tolkien true = None.
Proof.
  pose proof (author_lookups_gated "OL27482W" unreachable only_tolkien true)
    as (_ & H2 & _ & H4 & H5).
  pose proof (author_lookups_gated "OL27482W" (always (work None None (Some [])))
                only_tolkien true) as (_ & _ & H3 & _).
  split; [|split; [|split]].
  - apply (H2 AxiosError true). reflexivity.
  - apply (H3 (work None None (Some [])) true); [reflexivity|].
    right. reflexivity.
  - apply H4. reflexivity.
  - apply H5. reflexivity.
Defined.

(** ** Failure states *)

(** The second query can only fail when it was started. *)
Lemma authors_rejected_enabled (w : BookPage.BookDetails)
    (net : Net BookPage.Author) (e : JsError) :
  snd (BookPage.authorsQueryFn (Some w) net) = Rejected e ->
  BookPage.authors_enabled (Some w) = true.
Proof.
  unfold BookPage.authorsQueryFn, BookPage.authors_enabled.
  destruct (BookPage.book_authors (Some w)); [reflexivity | discriminate].
Qed.

(** C7, as stated, fails: when the primary record resolved and the
    aggregate author fetch failed, the detail view shows the book without
    its authors, not the [Book not found] message. *)
Lemma failed_authors_counterexample :
  snd (BookPage.authorsQueryFn
         (Some (work None None (Some [reference "/authors/OL26320A"]))) unreachable)
  = Rejected AxiosError
  /\ snd (BookPage.BookPage (BookPage.ParamString "OL27482W")
            (always (work None None (Some [reference "/authors/OL26320A"])))
            unreachable true true)
     = BookPage.detail_view (work None None (Some [reference "/authors/OL26320A"])) None
  /\ mentions "Book not found"
       (snd (BookPage.BookPage (BookPage.ParamString "OL27482W")
               (always (work None None (Some [reference "/authors/OL26320A"])))
               unreachable true true)) = false
  /\ hrefs (snd (BookPage.BookPage (BookPage.ParamString "OL27482W")
                   (always (work None None (Some [reference "/authors/OL26320A"])))
                   unreachable true true)) = ["/"]
  /\ mentions "The Hobbit"
       (snd (BookPage.BookPage (BookPage.ParamString "OL27482W")
               (always (work None None (Some [reference "/authors/OL26320A"])))
               unreachable true true)) = true.
Proof.
  repeat split.
Qed.

(** The failure message of the search view is shown whenever the query
    reports an error, whatever data it holds. *)
Lemma view_failure_message (search : string) (m : DataFetching.QueryType)
    (q : QueryResult (list DataFetching.Book)) :
  isError q = true ->
  mentions "Failed to fetch books. Please try again."
    (DataFetching.view search m q) = true.
Proof.
  intro He. unfold mentions, DataFetching.view, when_true. rewrite He.
  destruct (isLoading q); cbn -[DataFetching.card_grid String.eqb existsb];
    rewrite ?existsb_app; cbn [existsb]; rewrite String.eqb_refl;
    rewrite ?orb_true_r; reflexivity.
Qed.

(** C7, amended. Failures are told apart only coarsely, never by their
    cause.  A failed search fetch shows the static message
    [Failed to fetch books. Please try again.].  A failed primary detail
    fetch shows the static message [Book not found] with a link back to
    the search.  A failed aggregate author fetch, the primary record
    having resolved, shows no failure message: the detail view of the
    record is rendered without author data. *)
Theorem failure_rendering :
  forall (as_book : JsValue -> DataFetching.Book)
         (m : DataFetching.QueryType) (s : string) (net : Net JsValue)
         (netB : Net BookPage.BookDetails) (netA : Net BookPage.Author),
    s <> EmptyString ->
    (forall e,
       snd (DataFetching.fetchBooks m s None net) = Rejected e ->
       exists v,
         snd (DataFetching.DataFetching as_book s m net true) = Resolved v
         /\ mentions "Failed to fetch books. Please try again." v = true)
    /\ (forall e settledA,
          netB (work_url s) = Rejected e ->
          snd (BookPage.BookPage (BookPage.ParamString s) netB netA true settledA)
          = BookPage.not_found_view
          /\ texts BookPage.not_found_view = ["Book not found"; "Return to search"]
          /\ hrefs BookPage.not_found_view = ["/"])
    /\ (forall w e,
          netB (work_url s) = Resolved w ->
          snd (BookPage.authorsQueryFn (Some w) netA) = Rejected e ->
          snd (BookPage.BookPage (BookPage.ParamString s) netB netA true true)
          = BookPage.detail_view w None
          /\ BookPage.author_line None = []
          /\ BookPage.biographies_section None = []).
Proof.
  intros as_book m s net netB netA Hs.
  apply truthy_string_nonempty in Hs.
  split; [|split].
  - intros e H.
    unfold DataFetching.DataFetching, useQuery. rewrite Hs.
    destruct (DataFetching.fetchBooks m s None net) as [requests o].
    cbn [snd] in H. subst o. cbn [snd DataFetching.typed data isLoading isError].
    eexists. split; [reflexivity|].
    now apply view_failure_message.
  - intros e settledA H. split; [|split; reflexivity].
    unfold BookPage.BookPage, useQuery, BookPage.bookQueryFn, bind, axios_get.
    rewrite Hs. fold (work_url s). rewrite H. reflexivity.
  - intros w e Hw Ha. split; [|split; reflexivity].
    unfold BookPage.BookPage, useQuery, BookPage.bookQueryFn, bind, axios_get, ret.
    rewrite Hs. fold (work_url s). rewrite Hw. cbn [data].
    rewrite (authors_rejected_enabled w netA e Ha).
    destruct (BookPage.authorsQueryFn (Some w) netA) as [requests o].
    cbn [snd] in Ha. subst o. reflexivity.
Qed.

Lemma failure_rendering_witness :
  (exists v,
     snd (DataFetching.DataFetching (fun _ => summary "/works/OL1W" None) "tolkien"
            DataFetching.mode_author unreachable true) = Resolved v
     /\ mentions "Failed to fetch books. Please try again." v = true)
  /\ snd (BookPage.BookPage (BookPage.ParamString "OL27482W") unreachable
            unreachable true true) = BookPage.not_found_view
  /\ snd (BookPage.BookPage (BookPage.ParamString "OL27482W")
            (always (work None None (Some [reference "/authors/OL26320A"])))
            unreachable true true)
     = BookPage.detail_view (work None None (Some [reference "/authors/OL26320A"])) None.
Proof.
  pose proof (failure_rendering (fun _ => summary "/works/OL1W" None)
                DataFetching.mode_author "tolkien"
                unreachable unreachable unreachable ltac:(discriminate))
    as (H2 & _).
  pose proof (failure_rendering (fun _ => summary "/works/OL1W" None)
                DataFetching.mode_author "OL27482W"
                unreachable unreachable unreachable ltac:(discriminate))
    as (_ & H4 & _).
  pose proof (failure_rendering (fun _ => summary "/works/OL1W" None)
                DataFetching.mode_author "OL27482W"
                unreachable
                (always (work None None (Some [reference "/authors/OL26320A"])))
                unreachable ltac:(discriminate))
    as (_ & _ & H5).
  split; [|split].
  - exact (H2 AxiosError eq_refl).
  - exact (proj1 (H4 AxiosError true eq_refl)).
  - exact (proj1 (H5 (work None None (Some [reference "/authors/OL26320A"]))
                    AxiosError eq_refl eq_refl)).
Defined.

(** ** More on the search request *)

Lemma occurs_append (c : ascii) (a b : string) :
  occurs c (a +++ b) = occurs c a || occurs c b.
Proof.
  induction a as [|d a IH]; [reflexivity|].
  simpl. rewrite IH. apply orb_assoc.
Qed.

Lemma append_cancel_l (p a b : string) : p +++ a = p +++ b -> a = b.
Proof.
  induction p as [|c p IH]; simpl; [trivial|].
  intro H. injection H as H. now apply IH.
Qed.

(** The escaped text holds none of the characters that structure a query
    string. *)
Lemma percent_escape_no_delimiter (s : string) (c : ascii) :
  In c ["&"; "="; "?"; "#"; "/"; "+"; " "]%char ->
  occurs c (percent_escape s) = false.
Proof.
  intro Hc.
  destruct (occurs c (percent_escape s)) eqn:E; [|reflexivity].
  apply percent_escape_alphabet in E.
  simpl in Hc.
  repeat (destruct Hc as [<-|Hc];
          [destruct E as [E|[E|E]]; vm_compute in E; discriminate|]).
  contradiction.
Qed.

Lemma digits_no_ampersand (d : Decimal.uint) :
  occurs "&" (NilEmpty.string_of_uint d) = false.
Proof. induction d; simpl; auto. Qed.

Lemma number_to_string_no_ampersand (n : Z) :
  occurs "&" (number_to_string n) = false.
Proof.
  unfold number_to_string, NilZero.string_of_int, NilZero.string_of_uint.
  destruct (Z.to_int n) as [d|d]; destruct d; simpl;
    try reflexivity; apply digits_no_ampersand.
Qed.

(** A printed number reads back as the number. *)
Lemma number_to_string_inj (n n' : Z) :
  number_to_string n = number_to_string n' -> n = n'.
Proof.
  intro H. apply DecimalZ.to_int_inj.
  assert (R : forall z, NilZero.int_of_string (number_to_string z)
                        = Some (Z.to_int z)).
  { intro z. unfold number_to_string. apply NilZero.isi.
    - destruct z; simpl; try discriminate.
      intro E. injection E as E. now apply DecimalPos.Unsigned.to_uint_nonnil in E.
    - destruct z; simpl; try discriminate.
      intro E. injection E as E. now apply DecimalPos.Unsigned.to_uint_nonnil in E. }
  pose proof (R n) as Rn. rewrite H, R in Rn. now injection Rn.
Qed.

Lemma append_assoc (a b c : string) : (a +++ b) +++ c = a +++ b +++ c.
Proof. induction a as [|x a IH]; simpl; congruence. Qed.

(** The pieces of a search address between its ampersands. *)
Lemma search_url_pieces (m : DataFetching.QueryType) (s : string) (page : option Z) :
  split "&" (search_url m s page)
  = match m with
    | DataFetching.mode_authors => [search_base m s]
    | _ => [search_base m s; "page=" +++ number_to_string (nullish_or page 1%Z)]
    end.
Proof.
  assert (Hbase : occurs "&" (search_base m s) = false).
  { destruct m; unfold search_base; rewrite occurs_append;
      rewrite (percent_escape_no_delimiter s "&") by (simpl; auto);
      reflexivity. }
  assert (Hpage : occurs "&" ("page=" +++ number_to_string (nullish_or page 1%Z))
                  = false).
  { rewrite occurs_append, number_to_string_no_ampersand. reflexivity. }
  assert (Hurl : m <> DataFetching.mode_authors ->
                 search_url m s page
                 = search_base m s
                     +++ String "&" ("page=" +++ number_to_string (nullish_or page 1%Z))).
  { intro Hm. destruct m; try (now elim Hm);
      unfold search_url, search_base; rewrite append_assoc; reflexivity. }
  destruct m;
    try (rewrite Hurl by discriminate;
         rewrite split_at_separator,
           (split_without_separator _ _ Hbase), (split_without_separator _ _ Hpage);
         reflexivity).
  apply split_without_separator. exact Hbase.
Qed.

Lemma search_base_inj (m m' : DataFetching.QueryType) (s s' : string) :
  search_base m s = search_base m' s' -> m = m' /\ s = s'.
Proof.
  intro H.
  assert (Henc : percent_escape s = percent_escape s' -> s = s').
  { intro E. apply (f_equal percent_decode) in E.
    rewrite !percent_escape_decodes in E. now injection E. }
  destruct m, m'; unfold search_base in H; cbn [String.append] in H;
    try discriminate H;
    (split; [reflexivity|]); apply Henc;
    repeat (injection H as H); exact H.
Qed.


(** X1. The address requested for a search determines the search: two
    searches for non-empty strings that can be escaped and that request
    the same address have the same mode and the same search string, and,
    outside the author-only mode, ask for the same page. *)
Theorem search_request_determines_query :
  forall (m m' : DataFetching.QueryType) (s s' : string) (page page' : option Z)
         (net net' : Net JsValue),
    s <> EmptyString -> s' <> EmptyString ->
    utf8_valid s = true -> utf8_valid s' = true ->
    fst (DataFetching.fetchBooks m s page net)
    = fst (DataFetching.fetchBooks m' s' page' net') ->
    m = m' /\ s = s'
    /\ (m <> DataFetching.mode_authors ->
        nullish_or page 1%Z = nullish_or page' 1%Z).
Proof.
  intros m m' s s' page page' net net' Hs Hs' Hv Hv' H.
  rewrite (fetchBooks_request m s page net Hs Hv),
    (fetchBooks_request m' s' page' net' Hs' Hv') in H.
  cbn [fst] in H. injection H as H.
  apply (f_equal (split "&")) in H. rewrite !search_url_pieces in H.
  assert (Hb : search_base m s = search_base m' s').
  { destruct m, m'; try discriminate H; injection H; intros;
      unfold search_base; congruence. }
  destruct (search_base_inj m m' s s' Hb) as [-> ->].
  split; [reflexivity | split; [reflexivity|]].
  intro Hm. destruct m'; try (now elim Hm);
    injection H as Hn; now apply number_to_string_inj.
Qed.

Lemma search_request_determines_query_witness :
  DataFetching.mode_title = DataFetching.mode_title
  /\ "hobbit" = "hobbit"
  /\ (DataFetching.mode_title <> DataFetching.mode_authors ->
      nullish_or None 1%Z = nullish_or (Some 1%Z) 1%Z).
Proof.
  apply (search_request_determines_query
           DataFetching.mode_title DataFetching.mode_title "hobbit" "hobbit"
           None (Some 1%Z) unreachable (always JNull));
    [discriminate | discriminate | reflexivity | reflexivity | reflexivity].
Defined.

(** X2. The search string cannot add parameters to the request: cut at its
    ampersands, the requested address consists of the endpoint with the
    escaped string, followed in the modes [title], [author] and [q] by the
    single parameter [page=<n>]; the escaped string itself holds none of
    the characters [& = ? # / +] nor a space. *)
Theorem search_request_parameters :
  forall (m : DataFetching.QueryType) (s : string) (page : option Z)
         (net : Net JsValue),
    s <> EmptyString ->
    utf8_valid s = true ->
    exists url,
      fst (DataFetching.fetchBooks m s page net) = [url]
      /\ split "&" url
         = match m with
           | DataFetching.mode_authors =>
               ["https://openlibrary.org/search/authors.json?q="
                  +++ percent_escape s]
           | _ =>
               ["https://openlibrary.org/search.json?"
                  +++ DataFetching.queryType_text m +++ "=" +++ percent_escape s;
                "page=" +++ number_to_string (nullish_or page 1%Z)]
           end
      /\ forall c, In c ["&"; "="; "?"; "#"; "/"; "+"; " "]%char ->
                   occurs c (percent_escape s) = false.
Proof.
  intros m s page net Hs Hv. exists (search_url m s page).
  split; [|split].
  - rewrite (fetchBooks_request m s page net Hs Hv). reflexivity.
  - rewrite search_url_pieces. destruct m; reflexivity.
  - intros c Hc. now apply percent_escape_no_delimiter.
Qed.

Lemma search_request_parameters_witness :
  exists url,
    fst (DataFetching.fetchBooks DataFetching.mode_q "a&page=9" None unreachable) = [url]
    /\ split "&" url
       = ["https://openlibrary.org/search.json?q=a%26page%3D9"; "page=1"].
Proof.
  destruct (search_request_parameters DataFetching.mode_q "a&page=9" None
              unreachable ltac:(discriminate) eq_refl) as (url & Hu & Hp & _).
  exists url. split; [exact Hu | exact Hp].
Defined.

(** X3. How a call of [fetchBooks] on a non-empty search string can fail.
    When the string holds a lone surrogate the call issues no request and
    rejects with a [URIError].  Otherwise it issues exactly one request,
    and it rejects in two cases only: with the error of the request when
    the request fails, and with a [TypeError] when the response data is
    [null] or [undefined]. *)
Theorem fetchBooks_rejections :
  forall (m : DataFetching.QueryType) (s : string) (page : option Z)
         (net : Net JsValue),
    s <> EmptyString ->
    (utf8_valid s = false ->
     DataFetching.fetchBooks m s page net = ([], Rejected URIError))
    /\ (utf8_valid s = true ->
        exists url,
          fst (DataFetching.fetchBooks m s page net) = [url]
          /\ forall e,
               snd (DataFetching.fetchBooks m s page net) = Rejected e
               <-> (net url = Rejected e
                    \/ exists d, net url = Resolved d /\ is_nullish d = true
                                 /\ e = TypeError)).
Proof.
  intros m s page net Hs. split.
  - intro Hv. now apply fetchBooks_malformed.
  - intro Hv. exists (search_url m s page).
    rewrite (fetchBooks_request m s page net Hs Hv). cbn [fst snd].
    split; [reflexivity|].
    intro e. destruct (net (search_url m s page)) as [d|e0].
    + destruct (is_nullish d) eqn:Hd.
      * assert (Hg : get d "docs" = Rejected TypeError)
          by (destruct d; try discriminate; reflexivity).
        rewrite Hg. split.
        -- intro H. injection H as <-. right. exists d. auto.
        -- intros [H|(d' & _ & _ & ->)]; [discriminate | reflexivity].
      * destruct (get_defined d "docs" Hd) as [docs ->].
        destruct (get_defined d "entries" Hd) as [entries ->].
        split.
        -- destruct (is_nullish docs); discriminate.
        -- intros [H|(d' & H & Hd' & _)]; [discriminate|].
           injection H as <-. congruence.
    + split.
      * intro H. left. exact H.
      * intros [H|(d & H & _)]; [exact H | discriminate].
Qed.

Lemma fetchBooks_rejections_witness :
  DataFetching.fetchBooks DataFetching.mode_q lone_surrogate None (always JNull)
  = ([], Rejected URIError)
  /\ exists url,
       fst (DataFetching.fetchBooks DataFetching.mode_author "tolkien" None
              (always JNull)) = [url]
       /\ snd (DataFetching.fetchBooks DataFetching.mode_author "tolkien" None
                 (always JNull)) = Rejected TypeError.
Proof.
  split.
  - apply (proj1 (fetchBooks_rejections DataFetching.mode_q lone_surrogate None
                    (always JNull) ltac:(discriminate))).
    reflexivity.
  - destruct (proj2 (fetchBooks_rejections DataFetching.mode_author "tolkien" None
                       (always JNull) ltac:(discriminate)) eq_refl)
      as (url & Hu & Hr).
    exists url. split; [exact Hu|].
    apply Hr. right. exists JNull. repeat split.
Defined.

(** ** Attributes of the rendered trees *)

Section Attributes.
Variables tag a : string.
Hypothesis Hdiv : String.eqb "div" tag = false.
Hypothesis Hp : String.eqb "p" tag = false.
Hypothesis Hh1 : String.eqb "h1" tag = false.
Hypothesis Hh2 : String.eqb "h2" tag = false.
Hypothesis Hh3 : String.eqb "h3" tag = false.
Hypothesis Hspan : String.eqb "span" tag = false.

Ltac plain_element :=
  cbn -[String.eqb attribute]; rewrite ?Hdiv, ?Hp, ?Hh1, ?Hh2, ?Hh3, ?Hspan;
  cbn -[String.eqb attribute]; rewrite ?app_nil_r.

(** Text children carry no attribute. *)
Lemma string_child_attribute (s : string) :
  flat_map (attribute_values tag a) (string_child s) = [].
Proof. unfold string_child. destruct (truthy_string s); reflexivity. Qed.

(** A card contributes the attributes of its link and of its image. *)
Lemma BookCard_attribute (b : DataFetching.Book) :
  attribute_values tag a (DataFetching.BookCard b)
  = (if String.eqb "Link" tag
     then attribute a [("href", "/book/" +++ interpolate (DataFetching.workId b))]
     else [])
    ++ (if String.eqb "img" tag
        then attribute a [("src", DataFetching.coverUrl b);
                          ("alt", nullish_or (DataFetching.title b) "Book cover");
                          ("loading", "lazy")]
        else []).
Proof.
  unfold DataFetching.BookCard.
  generalize ("/book/" +++ interpolate (DataFetching.workId b)). intro target.
  generalize (DataFetching.coverUrl b). intro cover.
  destruct b as [k t n au y c l p pm i].
  unfold optional_child, when_number, when_nonempty, number_child.
  cbn [DataFetching.title DataFetching.name DataFetching.author_name
       DataFetching.first_publish_year DataFetching.language
       DataFetching.publisher].
  generalize (nullish_or t "Book cover"). intro alt.
  destruct t as [t|]; [|destruct n as [n|]];
    destruct au as [au|]; destruct y as [y|]; destruct p as [[|p0 p]|];
    destruct l as [[|l0 l]|];
    try (destruct (truthy_number y));
    unfold string_child;
    repeat match goal with
           | |- context [truthy_string ?s] => destruct (truthy_string s)
           end;
    plain_element; reflexivity.
Qed.

(** Outside its cards the search view has the same attributes in every
    state of the query. *)
Lemma view_attribute (search : string) (m : DataFetching.QueryType)
    (q : QueryResult (list DataFetching.Book)) :
  attribute_values tag a (DataFetching.view search m q)
  = attribute_values tag a (DataFetching.view search m (mkQuery None false false))
    ++ flat_map (attribute_values tag a) (DataFetching.card_grid (data q)).
Proof.
  unfold DataFetching.view, when_true.
  destruct (isLoading q), (isError q), (DataFetching.no_items (data q));
    cbn -[String.eqb attribute DataFetching.card_grid];
    rewrite ?Hdiv, ?Hp, ?Hh1; cbn -[String.eqb attribute DataFetching.card_grid];
    rewrite ?app_nil_r, <- ?app_assoc; reflexivity.
Qed.

Lemma description_section_attribute (w : BookPage.BookDetails) :
  flat_map (attribute_values tag a) (BookPage.description_section w) = [].
Proof.
  unfold BookPage.description_section, BookPage.when_text.
  destruct (BookPage.description w) as [d|]; [|reflexivity].
  destruct (BookPage.truthy_text d); [|reflexivity].
  plain_element. apply string_child_attribute.
Qed.

Lemma biography_attribute (l : list BookPage.Author) :
  flat_map (attribute_values tag a) (flat_map BookPage.biography l) = [].
Proof.
  induction l as [|x l IH]; [reflexivity|].
  cbn [flat_map]. rewrite flat_map_app, IH, app_nil_r.
  unfold BookPage.biography, BookPage.when_text.
  destruct (BookPage.bio x) as [b|]; [|reflexivity].
  destruct (BookPage.truthy_text b); [|reflexivity].
  plain_element. rewrite !string_child_attribute. reflexivity.
Qed.

Lemma biographies_section_attribute (authors : option (list BookPage.Author)) :
  flat_map (attribute_values tag a) (BookPage.biographies_section authors) = [].
Proof.
  unfold BookPage.biographies_section, when_true.
  destruct authors as [l|]; [|reflexivity].
  destruct (existsb BookPage.has_bio l); [|reflexivity].
  plain_element. apply biography_attribute.
Qed.

Lemma author_line_attribute (authors : option (list BookPage.Author)) :
  flat_map (attribute_values tag a) (BookPage.author_line authors) = [].
Proof.
  unfold BookPage.author_line, when_nonempty.
  destruct authors as [[|x l]|]; try reflexivity.
  plain_element. apply string_child_attribute.
Qed.

Lemma subjects_attribute (l : list string) :
  flat_map (attribute_values tag a)
    (map (fun subject => Elem "span" [] (string_child subject)) l) = [].
Proof.
  induction l as [|x l IH]; [reflexivity|].
  cbn [map flat_map]. rewrite IH, app_nil_r.
  plain_element. apply string_child_attribute.
Qed.

Lemma when_string_attribute (s : option string) (jsx : string -> Node) :
  (forall v, attribute_values tag a (jsx v) = []) ->
  flat_map (attribute_values tag a) (when_string s jsx) = [].
Proof.
  intro H. unfold when_string. destruct s as [v|]; [|reflexivity].
  destruct (truthy_string v); [|reflexivity].
  cbn [flat_map]. rewrite H. reflexivity.
Qed.

Lemma when_number_attribute (n : option Z) (jsx : Z -> Node) :
  (forall v, attribute_values tag a (jsx v) = []) ->
  flat_map (attribute_values tag a) (when_number n jsx) = [].
Proof.
  intro H. unfold when_number. destruct n as [v|]; [|reflexivity].
  destruct (truthy_number v); [|reflexivity].
  cbn [flat_map]. rewrite H. reflexivity.
Qed.

Lemma when_nonempty_attribute {A : Type} (l : option (list A))
    (jsx : list A -> Node) :
  (forall v, attribute_values tag a (jsx v) = []) ->
  flat_map (attribute_values tag a) (when_nonempty l jsx) = [].
Proof.
  intro H. unfold when_nonempty. destruct l as [[|x l]|]; try reflexivity.
  cbn [flat_map]. rewrite H. reflexivity.
Qed.

(** The detail view carries attributes on its back link and on its cover
    image only. *)
Lemma detail_view_attribute (w : BookPage.BookDetails)
    (authors : option (list BookPage.Author)) :
  attribute_values tag a (BookPage.detail_view w authors)
  = (if String.eqb "Link" tag then attribute a [("href", "/")] else [])
    ++ (if String.eqb "img" tag
        then attribute a [("src", BookPage.coverUrl w); ("alt", BookPage.title w)]
        else []).
Proof.
  unfold BookPage.detail_view.
  cbn -[String.eqb attribute BookPage.description_section
        BookPage.biographies_section BookPage.author_line].
  rewrite ?Hdiv, ?Hh1.
  cbn -[String.eqb attribute BookPage.description_section
        BookPage.biographies_section BookPage.author_line].
  rewrite !flat_map_app. cbn [flat_map]. rewrite !flat_map_app.
  rewrite description_section_attribute, biographies_section_attribute,
    author_line_attribute, string_child_attribute.
  rewrite when_nonempty_attribute
    by (intro v; plain_element; apply subjects_attribute).
  cbn [attribute_values]. rewrite Hdiv. cbn [attribute app].
  rewrite !flat_map_app.
  rewrite !when_string_attribute
    by (intro v; plain_element; apply string_child_attribute).
  rewrite when_number_attribute by (intro v; plain_element; reflexivity).
  rewrite when_nonempty_attribute
    by (intro v; plain_element; apply string_child_attribute).
  rewrite !app_nil_r. reflexivity.
Qed.

End Attributes.

(** Cards carry attributes on links and images only. *)
Lemma card_grid_attribute (tag a : string) (d : option (list DataFetching.Book)) :
  String.eqb "div" tag = false -> String.eqb "p" tag = false ->
  String.eqb "h3" tag = false ->
  String.eqb "Link" tag = false -> String.eqb "img" tag = false ->
  flat_map (attribute_values tag a) (DataFetching.card_grid d) = [].
Proof.
  intros Hdiv Hp Hh3 Hlink Himg. unfold DataFetching.card_grid.
  destruct d as [items|]; [|reflexivity].
  induction (slice 0 15 items) as [|b l IH]; [reflexivity|].
  cbn [map flat_map].
  rewrite (BookCard_attribute tag a Hdiv Hp Hh3), Hlink, Himg, IH. reflexivity.
Qed.


(** ** The search view in its states *)

(** X4. With an empty search box the component issues no request and
    renders its heading and controls only: no loading indicator, no failure
    message, no [No books found] message, no card, whatever the mode and
    whether or not time has passed. *)
Theorem empty_search_view :
  forall (as_book : JsValue -> DataFetching.Book)
         (m : DataFetching.QueryType) (net : Net JsValue) (settled : bool),
    fst (DataFetching.DataFetching as_book EmptyString m net settled) = []
    /\ exists v,
         snd (DataFetching.DataFetching as_book EmptyString m net settled)
         = Resolved v
         /\ texts v
            = ["OpenLibrary Search"; "Search by Title"; "Search by Author";
               "Search (General)"; "Search Authors Only"]
         /\ hrefs v = []
         /\ image_sources v = [].
Proof.
  intros as_book m net settled. split; [reflexivity|].
  eexists. split; [reflexivity|]. repeat split.
Qed.

(** X5. The component never asks for another page than the first: every
    request it issues, in any state and on any network, is the request of
    its mode for the escaped search string with [page=1] (without page in
    the author-only mode). *)
Theorem component_requests_first_page :
  forall (as_book : JsValue -> DataFetching.Book) (s : string)
         (m : DataFetching.QueryType) (net : Net JsValue) (settled : bool)
         (url : string),
    In url (fst (DataFetching.DataFetching as_book s m net settled)) ->
    url = match m with
          | DataFetching.mode_title =>
              "https://openlibrary.org/search.json?title=" +++ percent_escape s
                +++ "&page=1"
          | DataFetching.mode_author =>
              "https://openlibrary.org/search.json?author=" +++ percent_escape s
                +++ "&page=1"
          | DataFetching.mode_q =>
              "https://openlibrary.org/search.json?q=" +++ percent_escape s
                +++ "&page=1"
          | DataFetching.mode_authors =>
              "https://openlibrary.org/search/authors.json?q=" +++ percent_escape s
          end.
Proof.
  intros as_book s m net settled url Hin.
  unfold DataFetching.DataFetching, useQuery in Hin.
  destruct s as [|c r]; [contradiction Hin|].
  cbn [truthy_string] in Hin.
  destruct (utf8_valid (String c r)) eqn:Hv.
  - rewrite (fetchBooks_request m (String c r) None net) in Hin
      by (discriminate || exact Hv).
    cbn [fst] in Hin. destruct Hin as [<-|[]].
    destruct m; reflexivity.
  - rewrite (fetchBooks_malformed m (String c r) None net Hv) in Hin.
    contradiction Hin.
Qed.

Lemma component_requests_first_page_witness :
  "https://openlibrary.org/search.json?author=tolkien&page=1"
  = "https://openlibrary.org/search.json?author=" +++ percent_escape "tolkien"
      +++ "&page=1".
Proof.
  apply (component_requests_first_page (fun _ => summary "/works/OL1W" None)
           "tolkien" DataFetching.mode_author unreachable false).
  left. reflexivity.
Defined.



(** X7. In every state of the query the search view holds one [Image]
    element, the logo [/books.png] with alternative text [Logo], and its
    [img] elements are the covers of the first 15 results, in order, each
    with the book's title (or [Book cover] when it has none) as
    alternative text. *)
Theorem grid_covers :
  forall (search : string) (m : DataFetching.QueryType)
         (items : list DataFetching.Book) (loading error : bool),
    attribute_values "Image" "src"
      (DataFetching.view search m (mkQuery (Some items) loading error))
    = ["/books.png"]
    /\ attribute_values "Image" "alt"
         (DataFetching.view search m (mkQuery (Some items) loading error))
       = ["Logo"]
    /\ attribute_values "img" "src"
         (DataFetching.view search m (mkQuery (Some items) loading error))
       = map DataFetching.coverUrl (firstn 15 items)
    /\ attribute_values "img" "alt"
         (DataFetching.view search m (mkQuery (Some items) loading error))
       = map (fun b => match DataFetching.title b with
                       | Some t => t
                       | None => "Book cover"
                       end) (firstn 15 items).
Proof.
  intros search m items loading error.
  rewrite (view_attribute "Image" "src") by reflexivity.
  rewrite (view_attribute "Image" "alt") by reflexivity.
  rewrite (view_attribute "img" "src") by reflexivity.
  rewrite (view_attribute "img" "alt") by reflexivity.
  rewrite !card_grid_attribute by reflexivity.
  cbn [data DataFetching.card_grid]. rewrite slice_from_start.
  split; [reflexivity | split; [reflexivity | split]].
  - change (attribute_values "img" "src"
              (DataFetching.view search m (mkQuery None false false))) with (@nil string).
    cbn [app].
    induction (firstn 15 items) as [|b l IH]; [reflexivity|].
    cbn [map flat_map].
    rewrite (BookCard_attribute "img" "src") by reflexivity. rewrite IH.
    reflexivity.
  - change (attribute_values "img" "alt"
              (DataFetching.view search m (mkQuery None false false))) with (@nil string).
    cbn [app].
    induction (firstn 15 items) as [|b l IH]; [reflexivity|].
    cbn [map flat_map].
    rewrite (BookCard_attribute "img" "alt") by reflexivity. rewrite IH.
    destruct (DataFetching.title b); reflexivity.
Qed.

(** X8. The mode selector offers exactly the four query modes, each under
    its own value, and shows the current mode as selected; the text box
    shows the current search string.  Cards and messages add no option and
    no input. *)
Theorem mode_selector :
  forall (search : string) (m : DataFetching.QueryType)
         (q : QueryResult (list DataFetching.Book)),
    attribute_values "option" "value" (DataFetching.view search m q)
    = map DataFetching.queryType_text
        [DataFetching.mode_title; DataFetching.mode_author;
         DataFetching.mode_q; DataFetching.mode_authors]
    /\ attribute_values "select" "value" (DataFetching.view search m q)
       = [DataFetching.queryType_text m]
    /\ attribute_values "Input" "value" (DataFetching.view search m q) = [search]
    /\ forall m1 m2,
         DataFetching.queryType_text m1 = DataFetching.queryType_text m2 -> m1 = m2.
Proof.
  intros search m q.
  rewrite (view_attribute "option" "value") by reflexivity.
  rewrite (view_attribute "select" "value") by reflexivity.
  rewrite (view_attribute "Input" "value") by reflexivity.
  rewrite !card_grid_attribute by reflexivity.
  split; [reflexivity | split; [reflexivity | split; [reflexivity|]]].
  intros [] []; simpl; intro H; try reflexivity; discriminate H.
Qed.

(** ** The detail page in its states *)

(** X9. Without a usable work identifier (the route parameter is missing,
    is a list, or is the empty string) the detail page issues no request at
    all and shows [Book not found] at once, whatever the network would
    answer. *)
Theorem unusable_id_not_found :
  forall (netB : Net BookPage.BookDetails) (netA : Net BookPage.Author)
         (settledB settledA : bool),
    BookPage.BookPage BookPage.ParamMissing netB netA settledB settledA
    = ([], [], BookPage.not_found_view)
    /\ (forall l,
          BookPage.BookPage (BookPage.ParamList l) netB netA settledB settledA
          = ([], [], BookPage.not_found_view))
    /\ BookPage.BookPage (BookPage.ParamString EmptyString) netB netA settledB settledA
       = ([], [], BookPage.not_found_view).
Proof.
  intros netB netA settledB settledA. repeat split.
Qed.


(** The first query on a usable identifier. *)
Lemma BookPage_run (s : string) (netB : Net BookPage.BookDetails)
    (netA : Net BookPage.Author) (settledA : bool) :
  s <> EmptyString ->
  BookPage.BookPage (BookPage.ParamString s) netB netA true settledA
  = match netB (work_url s) with
    | Resolved w =>
        let (requestsA, authorsQuery) :=
          useQuery (BookPage.authorsQueryFn (Some w))
            (BookPage.authors_enabled (Some w)) netA settledA in
        ([work_url s], requestsA,
         BookPage.view (Some w) false (data authorsQuery) (isLoading authorsQuery))
    | Rejected _ => ([work_url s], [], BookPage.not_found_view)
    end.
Proof.
  intro Hs. apply truthy_string_nonempty in Hs.
  unfold BookPage.BookPage, useQuery at 1, BookPage.bookQueryFn, bind, axios_get, ret.
  rewrite Hs. fold (work_url s).
  destruct (netB (work_url s)) as [w|e]; reflexivity.
Qed.



(** X11. A work that carries an [authors] property is not shown before the
    author fetch has settled: until then the page stays on its loading
    view, even for an empty list of references.  A work without that
    property is shown as soon as it has resolved. *)
Theorem page_waits_for_authors :
  forall (s : string) (w : BookPage.BookDetails)
         (netB : Net BookPage.BookDetails) (netA : Net BookPage.Author),
    s <> EmptyString ->
    netB ("https://openlibrary.org/works/" +++ s +++ ".json") = Resolved w ->
    (BookPage.authors w <> None ->
     snd (BookPage.BookPage (BookPage.ParamString s) netB netA true false)
     = BookPage.loading_view)
    /\ (BookPage.authors w = None ->
        forall settledA,
          snd (BookPage.BookPage (BookPage.ParamString s) netB netA true settledA)
          = BookPage.detail_view w None).
Proof.
  intros s w netB netA Hs Hw.
  split.
  - intro Hrefs. rewrite (BookPage_run s netB netA _ Hs).
    unfold work_url. rewrite Hw.
    unfold useQuery, BookPage.authors_enabled, BookPage.book_authors.
    destruct (BookPage.authors w) as [refs|]; [|now elim Hrefs].
    destruct (BookPage.authorsQueryFn _ netA). reflexivity.
  - intros Hrefs settledA. rewrite (BookPage_run s netB netA _ Hs).
    unfold work_url. rewrite Hw.
    unfold useQuery, BookPage.authors_enabled, BookPage.book_authors.
    rewrite Hrefs. reflexivity.
Qed.

Lemma page_waits_for_authors_witness :
  snd (BookPage.BookPage (BookPage.ParamString "OL27482W")
         (always (work None None (Some []))) unreachable true false)
  = BookPage.loading_view
  /\ snd (BookPage.BookPage (BookPage.ParamString "OL27482W")
            (always (work None None None)) unreachable true false)
     = BookPage.detail_view (work None None None) None.
Proof.
  split.
  - apply (proj1 (page_waits_for_authors "OL27482W" (work None None (Some []))
                    (always (work None None (Some []))) unreachable
                    ltac:(discriminate) eq_refl)).
    discriminate.
  - apply (proj2 (page_waits_for_authors "OL27482W" (work None None None)
                    (always (work None None None)) unreachable
                    ltac:(discriminate) eq_refl)).
    reflexivity.
Defined.




(** X13. Whatever the work and its authors, the detail view holds exactly
    one image, the cover, whose alternative text is the work's title, and
    exactly one link, which leads back to the search. *)
Theorem detail_view_image_and_link :
  forall (w : BookPage.BookDetails) (authors : option (list BookPage.Author)),
    image_sources (BookPage.detail_view w authors) = [BookPage.coverUrl w]
    /\ attribute_values "img" "alt" (BookPage.detail_view w authors)
       = [BookPage.title w]
    /\ hrefs (BookPage.detail_view w authors) = ["/"].
Proof.
  intros w authors. unfold image_sources, hrefs.
  rewrite !detail_view_attribute by reflexivity.
  repeat split.
Qed.

(** X14. The texts of a search card are, in this order: the title (the
    name when there is no title), the author line, the year line, the
    first publisher and the upper-cased language codes.  The year line is
    absent without year, reads [First published: <year>] for a year other
    than zero, and is the bare text [0] for a year that is zero. *)
Theorem card_year_line :
  forall (b : DataFetching.Book),
    texts (DataFetching.BookCard b)
    = (match DataFetching.title b with
       | Some t => shown t
       | None => match DataFetching.name b with
                 | Some n => shown n
                 | None => []
                 end
       end)
      ++ (match DataFetching.author_name b with
          | Some names => "By " :: shown (join ", " names)
          | None => []
          end)
      ++ (match DataFetching.first_publish_year b with
          | None => []
          | Some y => if (y =? 0)%Z then ["0"]
                      else ["First published: "; number_to_string y]
          end)
      ++ (match DataFetching.publisher b with
          | Some (p :: _) => "Publisher: " :: shown p
          | _ => []
          end)
      ++ (match DataFetching.language b with
          | Some (l0 :: l) =>
              "Language: " :: shown (join ", " (map toUpperCase (l0 :: l)))
          | _ => []
          end).
Proof.
  intro b. unfold DataFetching.BookCard.
  destruct b as [k t n au y c l p pm i].
  unfold optional_child, when_number, when_nonempty, number_child, truthy_number,
    shown.
  cbn [DataFetching.title DataFetching.name DataFetching.author_name
       DataFetching.first_publish_year DataFetching.language
       DataFetching.publisher].
  destruct t as [t|]; [|destruct n as [n|]];
    destruct au as [au|]; destruct y as [y|]; destruct p as [[|p0 p]|];
    destruct l as [[|l0 l]|];
    try (destruct (Z.eqb_spec y 0) as [->|_]);
    unfold string_child; cbn [hd];
    repeat match goal with
           | |- context [truthy_string ?s] => destruct (truthy_string s)
           end;
    reflexivity.
Qed.

(** X15. The detail page never issues a request it was not asked for:
    every request of its first query is the lookup of the work named by
    the route parameter, and every request of its second query is the
    lookup of an author referenced by the work that the first query
    resolved to. *)
Theorem page_request_budget :
  forall (id : BookPage.Param) (netB : Net BookPage.BookDetails)
         (netA : Net BookPage.Author) (settledB settledA : bool) (url : string),
    (In url (fst (fst (BookPage.BookPage id netB netA settledB settledA))) ->
     exists s, id = BookPage.ParamString s /\ s <> EmptyString
               /\ url = "https://openlibrary.org/works/" +++ s +++ ".json")
    /\ (In url (author_requests (BookPage.BookPage id netB netA settledB settledA)) ->
        exists s w refs r,
          id = BookPage.ParamString s
          /\ netB ("https://openlibrary.org/works/" +++ s +++ ".json") = Resolved w
          /\ BookPage.authors w = Some refs
          /\ In r refs
          /\ url = "https://openlibrary.org"
                     +++ BookPage.ref_key (BookPage.author r) +++ ".json").
Proof.
  intros id netB netA settledB settledA url.
  unfold author_requests.
  destruct id as [s|l|]; try (split; intros []).
  destruct s as [|c s]; [split; intros []|].
  destruct settledB.
  - rewrite (BookPage_run (String c s) netB netA settledA) by discriminate.
    destruct (netB (work_url (String c s))) as [w|e] eqn:Hw.
    + unfold useQuery, BookPage.authors_enabled, BookPage.book_authors.
      destruct (BookPage.authors w) as [refs|] eqn:Hrefs.
      * rewrite (authorsQueryFn_run w refs netA Hrefs). cbn [fst snd].
        split.
        -- intros [<-|[]]. exists (String c s). repeat split. discriminate.
        -- intro Hin. apply in_map_iff in Hin as (r & <- & Hr).
           exists (String c s), w, refs, r. repeat split; assumption.
      * cbn [fst snd]. split; [|intros []].
        intros [<-|[]]. exists (String c s). repeat split. discriminate.
    + cbn [fst snd]. split; [|intros []].
      intros [<-|[]]. exists (String c s). repeat split. discriminate.
  - unfold BookPage.BookPage, useQuery, BookPage.bookQueryFn, bind, axios_get, ret.
    cbn [truthy_string]. fold (work_url (String c s)).
    destruct (netB (work_url (String c s))); cbn [fst snd app];
      (split; [|intros []]);
      intros [<-|[]]; exists (String c s); repeat split; discriminate.
Qed.

Lemma page_request_budget_witness :
  exists s w refs r,
    BookPage.ParamString "OL27482W" = BookPage.ParamString s
    /\ always (work None None (Some [reference "/authors/OL26320A"]))
         ("https://openlibrary.org/works/" +++ s +++ ".json") = Resolved w
    /\ BookPage.authors w = Some refs
    /\ In r refs
    /\ "https://openlibrary.org/authors/OL26320A.json"
       = "https://openlibrary.org" +++ BookPage.ref_key (BookPage.author r) +++ ".json".
Proof.
  apply (proj2 (page_request_budget (BookPage.ParamString "OL27482W")
                  (always (work None None (Some [reference "/authors/OL26320A"])))
                  only_tolkien true false
                  "https://openlibrary.org/authors/OL26320A.json")).
  left. reflexivity.
Defined.

(** ** Escaping of the search string *)

Lemma unreserved_ascii (c : ascii) :
  uri_unreserved c = true -> in_range 0 127 c = true.
Proof.
  destruct c as [[] [] [] [] [] [] [] []]; vm_compute; intro H;
    (reflexivity || discriminate H).
Qed.

Lemma unreserved_valid (s : string) :
  forallb uri_unreserved (list_ascii_of_string s) = true -> utf8_valid s = true.
Proof.
  induction s as [|c r IH]; [reflexivity|].
  cbn [list_ascii_of_string forallb]. intro H.
  apply andb_true_iff in H as [Hc Hr].
  cbn [utf8_valid]. rewrite (unreserved_ascii c Hc). now apply IH.
Qed.

Lemma unreserved_kept (s : string) :
  forallb uri_unreserved (list_ascii_of_string s) = true -> percent_escape s = s.
Proof.
  induction s as [|c r IH]; [reflexivity|].
  cbn [list_ascii_of_string forallb]. intro H.
  apply andb_true_iff in H as [Hc Hr].
  cbn [percent_escape]. rewrite Hc, (IH Hr). reflexivity.
Qed.

(** X16. [encodeURIComponent] on the search string: on a string with a
    lone surrogate it throws a [URIError]; on any other string it gives an
    escaped text that decodes back to the string.  A string made of
    letters, digits and the marks [- _ . ! ~ * ' ( )] is passed unchanged,
    and every other octet of the UTF-8 form becomes an escape [%XX]. *)
Theorem search_string_escaping :
  forall (s : string),
    (utf8_valid s = false -> encodeURIComponent s = Rejected URIError)
    /\ (utf8_valid s = true ->
        exists escaped,
          encodeURIComponent s = Resolved escaped
          /\ percent_decode escaped = Some s)
    /\ (forallb uri_unreserved (list_ascii_of_string s) = true ->
        encodeURIComponent s = Resolved s)
    /\ (forall c r, s = String c r -> uri_unreserved c = false ->
        exists h l, percent_escape s
                    = String "%" (String h (String l (percent_escape r)))).
Proof.
  intro s. split; [|split; [|split]].
  - intro Hv. unfold encodeURIComponent. rewrite Hv. reflexivity.
  - intro Hv. exists (percent_escape s).
    split; [now apply encodeURIComponent_valid | apply percent_escape_decodes].
  - intro H. rewrite (encodeURIComponent_valid s (unreserved_valid s H)).
    rewrite (unreserved_kept s H). reflexivity.
  - intros c r -> Hc. cbn [percent_escape]. rewrite Hc.
    unfold percent_octet. cbn [String.append]. eauto.
Qed.

Lemma search_string_escaping_witness :
  encodeURIComponent lone_surrogate = Rejected URIError
  /\ encodeURIComponent "The_Hobbit(1937)" = Resolved "The_Hobbit(1937)"
  /\ (exists escaped,
        encodeURIComponent "the hobbit" = Resolved escaped
        /\ percent_decode escaped = Some "the hobbit")
  /\ exists h l, percent_escape "/works" = String "%" (String h (String l "works")).
Proof.
  pose proof (search_string_escaping lone_surrogate) as (H1 & _).
  pose proof (search_string_escaping "The_Hobbit(1937)") as (_ & _ & H3 & _).
  pose proof (search_string_escaping "the hobbit") as (_ & H2 & _).
  pose proof (search_string_escaping "/works") as (_ & _ & _ & H4).
  split; [apply H1; reflexivity | split; [apply H3; reflexivity | split]].
  - apply H2. reflexivity.
  - apply (H4 "/"%char "works"); reflexivity.
Defined.

(** ** From a card to its detail page *)

(** X17. The link of a card and the lookup of the detail page fit
    together for works: for a result whose key is [/works/<id>] the card
    links to [/book/<id>], and the detail page on [<id>] looks up
    [https://openlibrary.org<key>.json], the record stored under that key,
    as its one work lookup. *)
Theorem card_leads_to_its_work :
  forall (b : DataFetching.Book) (id : string)
         (netB : Net BookPage.BookDetails) (netA : Net BookPage.Author)
         (settledB settledA : bool),
    DataFetching.key b = "/works/" +++ id ->
    occurs "/" id = false ->
    id <> EmptyString ->
    hrefs (DataFetching.BookCard b) = ["/book/" +++ id]
    /\ fst (fst (BookPage.BookPage (BookPage.ParamString id) netB netA
                   settledB settledA))
       = ["https://openlibrary.org" +++ DataFetching.key b +++ ".json"].
Proof.
  intros b id netB netA settledB settledA Hk Hid Hne.
  split.
  - rewrite BookCard_link, (workId_last_segment b "/works" id); [reflexivity| |exact Hid].
    rewrite Hk. reflexivity.
  - rewrite Hk. apply truthy_string_nonempty in Hne.
    unfold BookPage.BookPage, useQuery, BookPage.bookQueryFn, bind, axios_get, ret.
    rewrite Hne.
    match goal with |- context [netB ?u] => destruct (netB u) end;
      destruct settledB; cbn [data];
      match goal with
      | |- context [BookPage.authors_enabled ?x] =>
          destruct (BookPage.authors_enabled x)
      end;
      try match goal with
          | |- context [BookPage.authorsQueryFn ?x ?n] =>
              destruct (BookPage.authorsQueryFn x n)
          end;
      reflexivity.
Qed.

Lemma card_leads_to_its_work_witness :
  hrefs (DataFetching.BookCard (summary "/works/OL27482W" None)) = ["/book/OL27482W"]
  /\ fst (fst (BookPage.BookPage (BookPage.ParamString "OL27482W") unreachable
                 unreachable true true))
     = ["https://openlibrary.org/works/OL27482W.json"].
Proof.
  exact (card_leads_to_its_work (summary "/works/OL27482W" None) "OL27482W"
           unreachable unreachable true true eq_refl eq_refl ltac:(discriminate)).
Defined.
